(** * MedReport Analyzer: range classification and risk aggregation

    A shallow embedding of [categorize_results], [create_summary] and
    [create_visualizations] of [app.py], of the constant table
    [REFERENCE_RANGES] and of the part of [main] that calls them, and
    the properties of the classification boundaries, of the ordered
    inference blocks and of the rows that are plotted.

    Python data is represented as follows.
    - A Python [float] is an IEEE 754 binary64 number: Rocq's primitive
      [float], compared with [<?] and [<=?].  The integers of the table
      ([38], [100], [450000], ...) are all exactly representable, and
      Python compares an [int] with a [float] by value, so they are
      written as floats.
    - A [str] is a [string].
    - [test_results] and [categorized_results] are insertion-ordered
      dicts: association lists, written to with [dict_set].
    - [REFERENCE_RANGES], its entries and [patient_info] are looked up
      by key, and [patient_info] is written to by [main] before any
      lookup: [gmap string _].
    - An exception aborts the call: functions that can raise return a
      [result]. *)

From Stdlib Require Import Floats Ascii String DecimalString.
From stdpp Require Import gmap strings list fin_maps.

Local Open Scope string_scope.

(* A decimal literal denotes the nearest binary64 number, as in Python. *)
Set Warnings "-inexact-float".

(** ** Exceptions *)

Inductive exn := TypeError | ValueError | KeyError | IndexError.

Inductive result (A : Type) :=
| Ok (a : A)
| Raise (e : exn).
Arguments Ok {A} a.
Arguments Raise {A} e.

#[export] Instance result_ret : MRet result := λ A a, Ok a.

#[export] Instance result_bind : MBind result := λ A B k r,
  match r with
  | Ok a => k a
  | Raise e => Raise e
  end.

#[export] Instance result_fmap : FMap result := λ A B f r,
  match r with
  | Ok a => Ok (f a)
  | Raise e => Raise e
  end.

(** ** Python values *)

(** A value of [test_results]: [float(match.group(1))], or the stripped
    text when [float] raised [ValueError]. *)
Inductive value :=
| VNum (x : float)
| VStr (s : string).

(** [isinstance(value, (int, float))] *)
Definition is_number (v : value) : bool :=
  match v with
  | VNum _ => true
  | VStr _ => false
  end.

(** [a < b] and [a <= b]: numbers compare by value, strings
    lexicographically, and a number against a string raises. *)
Definition py_lt (a b : value) : result bool :=
  match a, b with
  | VNum x, VNum y => Ok (x <? y)%float
  | VStr s, VStr t => Ok (String.ltb s t)
  | _, _ => Raise TypeError
  end.

Definition py_le (a b : value) : result bool :=
  match a, b with
  | VNum x, VNum y => Ok (x <=? y)%float
  | VStr s, VStr t => Ok (String.leb s t)
  | _, _ => Raise TypeError
  end.

(** [a > b] is [b < a]. *)
Definition py_gt (a b : value) : result bool := py_lt b a.

(** A value stored under a key of a [REFERENCE_RANGES] entry: a pair of
    bounds, [None], or a text. *)
Inductive field :=
| FRange (lo hi : float)
| FNone
| FText (s : string).

(** [f[1]] *)
Definition py_item1 (f : field) : result value :=
  match f with
  | FRange _ hi => Ok (VNum hi)
  | FNone => Raise TypeError
  | FText (String _ (String c _)) => Ok (VStr (String c ""))
  | FText _ => Raise IndexError
  end.

(** [lower, upper = f] *)
Definition py_unpack2 (f : field) : result (value * value) :=
  match f with
  | FRange lo hi => Ok (VNum lo, VNum hi)
  | FNone => Raise TypeError
  | FText (String c1 (String c2 "")) =>
      Ok (VStr (String c1 ""), VStr (String c2 ""))
  | FText _ => Raise ValueError
  end.

(** [d[k]] on a dict that is only read *)
Definition py_getitem {A} (d : gmap string A) (k : string) : result A :=
  match d !! k with
  | Some a => Ok a
  | None => Raise KeyError
  end.

(** [s.lower()] and [s.upper()], on the ASCII letters *)
Definition lower_ascii (c : ascii) : ascii :=
  let n := nat_of_ascii c in
  if (65 <=? n)%nat && (n <=? 90)%nat then ascii_of_nat (n + 32) else c.

Definition upper_ascii (c : ascii) : ascii :=
  let n := nat_of_ascii c in
  if (97 <=? n)%nat && (n <=? 122)%nat then ascii_of_nat (n - 32) else c.

Fixpoint str_map (f : ascii → ascii) (s : string) : string :=
  match s with
  | "" => ""
  | String c s' => String (f c) (str_map f s')
  end.

Definition lower (s : string) : string := str_map lower_ascii s.
Definition upper (s : string) : string := str_map upper_ascii s.

(** [sub in s] *)
Fixpoint contains (sub s : string) : bool :=
  String.prefix sub s ||
  match s with
  | "" => false
  | String _ s' => contains sub s'
  end.

(** ** Insertion-ordered dicts *)

Section dict.
Context {A : Type}.

(** [d.get(k)] *)
Fixpoint dict_get (k : string) (d : list (string * A)) : option A :=
  match d with
  | [] => None
  | (k', a) :: d' => if String.eqb k' k then Some a else dict_get k d'
  end.

(** [d[k] = a]: an existing key keeps its position, a new key goes
    last. *)
Fixpoint dict_set (k : string) (a : A) (d : list (string * A))
  : list (string * A) :=
  match d with
  | [] => [(k, a)]
  | (k', a') :: d' =>
      if String.eqb k' k then (k, a) :: d' else (k', a') :: dict_set k a d'
  end.

(** [{k: v for k, v in d.items() if p(v)}] *)
Definition dict_filter (p : A → bool) (d : list (string * A))
  : list (string * A) :=
  List.filter (λ kv, p (snd kv)) d.

End dict.

(** ** [REFERENCE_RANGES] *)

(** An entry with bounds per sex:
    [{"male": .., "female": .., "unit": .., "low_concern": ..,
      "high_concern": ..}]. *)
Definition sex_bounded (male female : field) (unit low_concern high_concern : string)
  : gmap string field :=
  {[ "male" := male;
     "female" := female;
     "unit" := FText unit;
     "low_concern" := FText low_concern;
     "high_concern" := FText high_concern ]}.

Definition LDL_ranges : gmap string field :=
  {[ "normal" := FRange 0 100;
     "borderline" := FRange 101 130;
     "high" := FRange 131 170;
     "very_high" := FRange 171 999;
     "unit" := FText "mg/dl";
     "low_concern" := FText "";
     "high_concern" := FText "Elevated LDL - increased cardiovascular risk" ]}.

Definition VITAMIN_B12_ranges : gmap string field :=
  {[ "deficient" := FRange 0 200;
     "normal" := FRange 200 900;
     "excess" := FRange 900 9999;
     "unit" := FText "pg/ml";
     "low_concern" := FText "B12 deficiency - neurological issues possible";
     "high_concern" := FText "" ]}.

Definition VITAMIN_D3_ranges : gmap string field :=
  {[ "deficient" := FRange 0 20;
     "insufficient" := FRange 20 30;
     "normal" := FRange 30 80;
     "excess" := FRange 80 9999;
     "unit" := FText "ng/mL";
     "low_concern" := FText "Vitamin D deficiency - bone health risk";
     "high_concern" := FText "Vitamin D excess - hypercalcemia risk" ]}.

Definition HBA1C_ranges : gmap string field :=
  {[ "normal" := FRange 0 5.7;
     "prediabetes" := FRange 5.7 6.5;
     "diabetes" := FRange 6.5 20;
     "unit" := FText "%";
     "low_concern" := FText "";
     "high_concern" := FText "Elevated HbA1c - diabetes or prediabetes" ]}.

(** The entries in the order of the source. *)
Definition REFERENCE_RANGES_items : list (string * gmap string field) :=
  [ ("HAEMOGLOBIN", sex_bounded (FRange 13.0 16.5) (FRange 12.0 15.5) "gm%"
       "Anemia possible" "Polycythemia possible");
    ("RBC", sex_bounded (FRange 4.2 5.4) (FRange 3.6 5.0) "mill/c.mm."
       "Low RBC count" "Elevated RBC count");
    ("PCV", sex_bounded (FRange 38 42) (FRange 36 40) "%"
       "Low hematocrit" "Elevated hematocrit");
    ("MCV", sex_bounded (FRange 78 100) (FRange 78 100) "fl"
       "Microcytic anemia possible" "Macrocytic anemia possible");
    ("MCH", sex_bounded (FRange 27 31) (FRange 27 31) "pg"
       "Hypochromic anemia possible" "Hyperchromic anemia possible");
    ("MCHC", sex_bounded (FRange 32 36) (FRange 32 36) "%"
       "Decreased hemoglobin concentration" "Increased hemoglobin concentration");
    ("WBC", sex_bounded (FRange 4500 10000) (FRange 4500 10000) "/c.mm."
       "Leukopenia - impaired immune response"
       "Leukocytosis - infection or inflammation possible");
    ("NEUTROPHILS", sex_bounded (FRange 40 75) (FRange 40 75) "%"
       "Neutropenia" "Neutrophilia - bacterial infection possible");
    ("EOSINOPHILS", sex_bounded (FRange 0 6) (FRange 0 6) "%"
       "" "Eosinophilia - allergy or parasitic infection possible");
    ("BASOPHILS", sex_bounded (FRange 0 1) (FRange 0 1) "%"
       "" "Basophilia - inflammatory or allergic reaction possible");
    ("LYMPHOCYTES", sex_bounded (FRange 20 45) (FRange 20 45) "%"
       "Lymphopenia" "Lymphocytosis - viral infection possible");
    ("MONOCYTES", sex_bounded (FRange 2 10) (FRange 2 10) "%"
       "" "Monocytosis - chronic inflammation possible");
    ("PLATELETS", sex_bounded (FRange 140000 450000) (FRange 140000 450000) "/c.mm."
       "Thrombocytopenia - bleeding risk" "Thrombocytosis - clotting risk");
    ("CHOLESTEROL_TOTAL", sex_bounded (FRange 70 200) (FRange 70 200) "mg/dl"
       "" "Hypercholesterolemia - increased cardiovascular risk");
    ("TRIGLYCERIDES", sex_bounded (FRange 40 150) (FRange 40 150) "mg/dl"
       "" "Hypertriglyceridemia - increased cardiovascular risk");
    ("HDL", sex_bounded (FRange 35 120) (FRange 35 120) "mg/dl"
       "Low HDL - increased cardiovascular risk" "");
    ("LDL", LDL_ranges);
    ("VLDL", sex_bounded (FRange 5 35) (FRange 5 35) "mg/dl"
       "" "Elevated VLDL - increased cardiovascular risk");
    ("CHO_HDL_RATIO", sex_bounded (FRange 3 5) (FRange 3 5) ""
       "" "Elevated ratio - increased cardiovascular risk");
    ("LDL_HDL_RATIO", sex_bounded (FRange 2.5 3.5) (FRange 2.5 3.5) ""
       "" "Elevated ratio - increased cardiovascular risk");
    ("CREATININE", sex_bounded (FRange 0.7 1.3) (FRange 0.6 1.1) "mg/dl"
       "" "Elevated creatinine - possible kidney dysfunction");
    ("ALKALINE_PHOSPHATE", sex_bounded (FRange 15 112) (FRange 15 112) "IU/L"
       "" "Elevated ALP - possible liver or bone disorder");
    ("SGPT", sex_bounded (FRange 0 45) (FRange 0 45) "IU/L"
       "" "Elevated SGPT - possible liver damage");
    ("TSH", sex_bounded (FRange 0.39 6.11) (FRange 0.39 6.11) "uIU/ml"
       "Low TSH - possible hyperthyroidism" "Elevated TSH - possible hypothyroidism");
    ("PSA", sex_bounded (FRange 0 4.0) FNone "ng/ml"
       "" "Elevated PSA - prostate abnormality possible, including cancer");
    ("VITAMIN_B12", VITAMIN_B12_ranges);
    ("VITAMIN_D3", VITAMIN_D3_ranges);
    ("HBA1C", HBA1C_ranges) ].

Definition REFERENCE_RANGES : gmap string (gmap string field) :=
  list_to_map REFERENCE_RANGES_items.

(** ** [categorize_results] *)

(** [{"value": .., "status": .., "concern": ..}] *)
Record entry := Entry {
  value_of : value;
  status : string;
  concern : field
}.

(** [ref_range[tier][1]] *)
Definition tier_upper (ref_range : gmap string field) (tier : string)
  : result value :=
  f ← py_getitem ref_range tier; py_item1 f.

(** The body of the loop: the entry stored under [test]. *)
Definition categorize_entry (sex test : string) (value : value) : result entry :=
  match REFERENCE_RANGES !! test with
  | Some ref_range =>
      if String.eqb test "LDL" then
        u ← tier_upper ref_range "normal"; b ← py_le value u;
        if b : bool then Ok (Entry value "normal" (FText "")) else
        u ← tier_upper ref_range "borderline"; b ← py_le value u;
        if b : bool then
          c ← py_getitem ref_range "high_concern"; Ok (Entry value "borderline" c)
        else
        u ← tier_upper ref_range "high"; b ← py_le value u;
        if b : bool then
          c ← py_getitem ref_range "high_concern"; Ok (Entry value "abnormal_high" c)
        else
          c ← py_getitem ref_range "high_concern";
          Ok (Entry value "very_abnormal_high" c)
      else if String.eqb test "HBA1C" then
        u ← tier_upper ref_range "normal"; b ← py_lt value u;
        if b : bool then Ok (Entry value "normal" (FText "")) else
        u ← tier_upper ref_range "prediabetes"; b ← py_lt value u;
        if b : bool then Ok (Entry value "borderline" (FText "Prediabetes"))
        else Ok (Entry value "abnormal_high" (FText "Diabetes mellitus"))
      else if String.eqb test "VITAMIN_D3" then
        u ← tier_upper ref_range "deficient"; b ← py_lt value u;
        if b : bool then
          Ok (Entry value "abnormal_low" (FText "Severe Vitamin D deficiency"))
        else
        u ← tier_upper ref_range "insufficient"; b ← py_lt value u;
        if b : bool then
          Ok (Entry value "borderline_low" (FText "Vitamin D insufficiency"))
        else
        u ← tier_upper ref_range "normal"; b ← py_le value u;
        if b : bool then Ok (Entry value "normal" (FText "")) else
          c ← py_getitem ref_range "high_concern"; Ok (Entry value "abnormal_high" c)
      else if String.eqb test "VITAMIN_B12" then
        u ← tier_upper ref_range "deficient"; b ← py_lt value u;
        if b : bool then
          c ← py_getitem ref_range "low_concern"; Ok (Entry value "abnormal_low" c)
        else
        u ← tier_upper ref_range "normal"; b ← py_le value u;
        if b : bool then Ok (Entry value "normal" (FText "")) else
          Ok (Entry value "abnormal_high" (FText "Elevated B12 levels"))
      else
        match (if is_number value then ref_range !! sex else None) with
        | Some bounds =>
            '(lower, upper) ← py_unpack2 bounds;
            b ← py_lt value lower;
            if b : bool then
              c ← py_getitem ref_range "low_concern"; Ok (Entry value "abnormal_low" c)
            else
            b ← py_gt value upper;
            if b : bool then
              c ← py_getitem ref_range "high_concern"; Ok (Entry value "abnormal_high" c)
            else Ok (Entry value "normal" (FText ""))
        | None => Ok (Entry value "not_numeric" (FText ""))
        end
  | None => Ok (Entry value "no_reference" (FText ""))
  end.

(** [for test, value in test_results.items(): ...] *)
Fixpoint categorize_loop (sex : string) (items : list (string * value))
    (categorized_results : list (string * entry))
  : result (list (string * entry)) :=
  match items with
  | [] => Ok categorized_results
  | (test, value) :: items' =>
      e ← categorize_entry sex test value;
      categorize_loop sex items' (dict_set test e categorized_results)
  end.

Definition categorize_results (test_results : list (string * value))
    (patient_info : gmap string string) : result (list (string * entry)) :=
  let sex := lower (default "MALE" (patient_info !! "sex")) in
  categorize_loop sex test_results [].

(** ** [create_summary] *)

Record summary := Summary {
  patient_info_of : gmap string string;
  abnormal_count : nat;
  abnormal_tests : list (string * entry);
  risk_factors : list string;
  recommendations : list string
}.

(** [summary["risk_factors"].append(r)] *)
Definition append_risk (r : string) (s : summary) : summary :=
  Summary (patient_info_of s) (abnormal_count s) (abnormal_tests s)
    (risk_factors s ++ [r]) (recommendations s).

(** [summary["recommendations"].append(r)] *)
Definition append_rec (r : string) (s : summary) : summary :=
  Summary (patient_info_of s) (abnormal_count s) (abnormal_tests s)
    (risk_factors s) (recommendations s ++ [r]).

(** Statements run left to right: [s |> f |> g] is [f] then [g]. *)
Notation "s |> f" := (f s) (at level 45, left associativity, only parsing).

(** [test in categorized_results and
     categorized_results[test]["status"] == st] *)
Definition status_is (categorized_results : list (string * entry))
    (test st : string) : bool :=
  match dict_get test categorized_results with
  | Some e => String.eqb (status e) st
  | None => false
  end.

(** ['abnormal' in v['status'] or 'borderline' in v['status']] *)
Definition is_flagged (v : entry) : bool :=
  contains "abnormal" (status v) || contains "borderline" (status v).

Section blocks.
Variable categorized_results : list (string * entry).
Variable patient_info : gmap string string.

(** Check for anemia *)
Definition check_anemia (s : summary) : summary :=
  if status_is categorized_results "HAEMOGLOBIN" "abnormal_low" then
    match dict_get "MCV" categorized_results with
    | Some mcv =>
        if String.eqb (status mcv) "abnormal_low" then
          s |> append_risk "Microcytic anemia possible - consider iron deficiency"
            |> append_rec "Further investigation for iron deficiency anemia recommended"
        else if String.eqb (status mcv) "abnormal_high" then
          s |> append_risk "Macrocytic anemia possible - consider B12/folate deficiency"
            |> append_rec
                 "Further investigation for vitamin B12 or folate deficiency recommended"
        else
          s |> append_risk "Normocytic anemia possible"
    | None => s
    end
  else s.

(** Check for infection/inflammation *)
Definition check_infection (s : summary) : summary :=
  if status_is categorized_results "WBC" "abnormal_high" then
    s |> append_risk
           "Elevated white blood cell count - possible infection or inflammation"
      |> append_rec "Monitor for signs of infection or inflammatory conditions"
  else s.

(** Check cardiovascular risk *)
Definition has_lipid_concerns : bool :=
  let has := false in
  let has :=
    if status_is categorized_results "CHOLESTEROL_TOTAL" "abnormal_high"
    then true else has in
  let has :=
    if status_is categorized_results "LDL" "abnormal_high"
       || status_is categorized_results "LDL" "very_abnormal_high"
    then true else has in
  let has :=
    if status_is categorized_results "HDL" "abnormal_low" then true else has in
  let has :=
    if status_is categorized_results "TRIGLYCERIDES" "abnormal_high"
    then true else has in
  has.

Definition check_lipids (s : summary) : summary :=
  if has_lipid_concerns then
    let s :=
      s |> append_risk "Dyslipidemia - increased cardiovascular risk"
        |> append_rec
             "Lifestyle modifications recommended; consider dietary changes and exercise" in
    if status_is categorized_results "LDL" "very_abnormal_high" then
      s |> append_rec "Consider consultation with cardiologist for lipid management"
    else s
  else s.

(** Check diabetes risk *)
Definition check_diabetes (s : summary) : summary :=
  match dict_get "HBA1C" categorized_results with
  | Some hba1c =>
      if String.eqb (status hba1c) "borderline" then
        s |> append_risk "Prediabetes"
          |> append_rec
               "Lifestyle modifications recommended; consider dietary changes and exercise"
          |> append_rec "Follow-up HbA1c test in 3-6 months"
      else if String.eqb (status hba1c) "abnormal_high" then
        s |> append_risk "Diabetes mellitus"
          |> append_rec "Consultation with endocrinologist recommended"
          |> append_rec "Regular blood glucose monitoring"
      else s
  | None => s
  end.

(** Check prostate risk (for males) *)
Definition check_prostate (s : summary) : summary :=
  if String.eqb (upper (default "" (patient_info !! "sex"))) "MALE" then
    if status_is categorized_results "PSA" "abnormal_high" then
      s |> append_risk "Elevated PSA - prostate abnormality possible"
        |> append_rec "Urologist consultation recommended"
    else s
  else s.

(** Check vitamin deficiencies *)
Definition check_vitamin_d (s : summary) : summary :=
  match dict_get "VITAMIN_D3" categorized_results with
  | Some d3 =>
      if String.eqb (status d3) "abnormal_low" then
        s |> append_risk "Severe Vitamin D deficiency"
          |> append_rec "Vitamin D supplementation recommended"
      else if String.eqb (status d3) "borderline_low" then
        s |> append_risk "Vitamin D insufficiency"
          |> append_rec "Consider Vitamin D supplementation"
      else s
  | None => s
  end.

Definition check_vitamin_b12 (s : summary) : summary :=
  if status_is categorized_results "VITAMIN_B12" "abnormal_low" then
    s |> append_risk "Vitamin B12 deficiency"
      |> append_rec "Vitamin B12 supplementation recommended"
  else s.

(** Check kidney function *)
Definition check_kidney (s : summary) : summary :=
  if status_is categorized_results "CREATININE" "abnormal_high" then
    s |> append_risk "Elevated creatinine - possible kidney dysfunction"
      |> append_rec "Follow-up kidney function tests recommended"
  else s.

(** Check liver function *)
Definition liver_concerns : bool :=
  let liver := false in
  let liver :=
    if status_is categorized_results "SGPT" "abnormal_high" then true else liver in
  let liver :=
    if status_is categorized_results "ALKALINE_PHOSPHATE" "abnormal_high"
    then true else liver in
  liver.

Definition check_liver (s : summary) : summary :=
  if liver_concerns then
    s |> append_risk "Possible liver function abnormalities"
      |> append_rec "Follow-up liver function tests recommended"
  else s.

(** Check thyroid function *)
Definition check_thyroid (s : summary) : summary :=
  match dict_get "TSH" categorized_results with
  | Some tsh =>
      if String.eqb (status tsh) "abnormal_high" then
        s |> append_risk "Elevated TSH - possible hypothyroidism"
          |> append_rec "Consider thyroid profile (T3, T4)"
      else if String.eqb (status tsh) "abnormal_low" then
        s |> append_risk "Low TSH - possible hyperthyroidism"
          |> append_rec "Consider thyroid profile (T3, T4)"
      else s
  | None => s
  end.

(** If no risk factors identified *)
Definition no_risk_factors (s : summary) : summary :=
  match risk_factors s with
  | [] =>
      s |> append_risk "No significant risk factors identified"
        |> append_rec "Routine follow-up as per age and gender appropriate guidelines"
  | _ :: _ => s
  end.

(** The summary before the first block runs. *)
Definition initial_summary : summary :=
  let abnormal_results := dict_filter is_flagged categorized_results in
  Summary patient_info (length abnormal_results) abnormal_results [] [].

(** The ten inference blocks, in the order in which they run. *)
Definition inference_blocks : list (summary → summary) :=
  [ check_anemia; check_infection; check_lipids; check_diabetes; check_prostate;
    check_vitamin_d; check_vitamin_b12; check_kidney; check_liver; check_thyroid ].

Definition create_summary : summary :=
  initial_summary
    |> check_anemia
    |> check_infection
    |> check_lipids
    |> check_diabetes
    |> check_prostate
    |> check_vitamin_d
    |> check_vitamin_b12
    |> check_kidney
    |> check_liver
    |> check_thyroid
    |> no_risk_factors.

End blocks.

(** ** [main]: from the extracted text to the summary *)

(** The select box of the sidebar: its options, and the option it shows
    while the user leaves it alone. *)
Definition sex_options : list string := ["Male"; "Female"].
Definition default_sex : string := "Male".

(** [str(n)] of a non-negative [int] *)
Definition str (n : N) : string := NilZero.string_of_uint (N.to_uint n).

(** Use user input if available:
      [if patient_info.get("sex") is None and patient_sex:
           patient_info["sex"] = patient_sex]
    and the same with the age, where [patient_sex] and [patient_age] are
    the values of the two widgets.  A sex found in the text wins. *)
Definition use_user_input (patient_sex : string) (patient_age : N)
    (patient_info : gmap string string) : gmap string string :=
  let patient_info :=
    match patient_info !! "sex" with
    | None =>
        if String.eqb patient_sex "" then patient_info
        else <["sex" := patient_sex]> patient_info
    | Some _ => patient_info
    end in
  match patient_info !! "age" with
  | None =>
      if (patient_age =? 0)%N then patient_info
      else <["age" := str patient_age]> patient_info
  | Some _ => patient_info
  end.

(** What [main] computes from [extract_patient_info(extracted_text)] and
    [extract_test_results(extracted_text)] before it displays anything:
    the classified observations and the summary, and neither when no
    test result was extracted. *)
Definition main_summary (patient_sex : string) (patient_age : N)
    (patient_info : gmap string string) (test_results : list (string * value))
  : result (option (list (string * entry) * summary)) :=
  let patient_info := use_user_input patient_sex patient_age patient_info in
  match test_results with
  | [] => Ok None
  | _ :: _ =>
      categorized_results ← categorize_results test_results patient_info;
      let summary := create_summary categorized_results patient_info in
      Ok (Some (categorized_results, summary))
  end.

(** * Properties *)

(** ** The order of binary64 numbers

    [<?] and [<=?] are specified by [SFcompare] on the decoded number.
    [SFkey] sends every number but NaN to a triple of integers on which
    [SFcompare] is the lexicographic order; the order facts used by the
    tier proofs follow by linear arithmetic. *)

Definition SFkey (x : spec_float) : option (Z * Z * Z) :=
  match x with
  | S754_nan => None
  | S754_infinity true => Some (-2, 0, 0)%Z
  | S754_finite true m e => Some (-1, - e, Z.neg m)%Z
  | S754_zero _ => Some (0, 0, 0)%Z
  | S754_finite false m e => Some (1, e, Z.pos m)%Z
  | S754_infinity false => Some (2, 0, 0)%Z
  end.

Definition lex_lt (a b : Z * Z * Z) : Prop :=
  let '(a1, a2, a3) := a in
  let '(b1, b2, b3) := b in
  (a1 < b1 ∨ (a1 = b1 ∧ (a2 < b2 ∨ (a2 = b2 ∧ a3 < b3))))%Z.

Definition lex_le (a b : Z * Z * Z) : Prop := lex_lt a b ∨ a = b.

Definition fkey (x : float) : option (Z * Z * Z) := SFkey (Prim2SF x).

Lemma SFcompare_key x y :
  SFcompare x y =
  match SFkey x, SFkey y with
  | Some (a1, a2, a3), Some (b1, b2, b3) =>
      Some match (a1 ?= b1)%Z with
           | Eq => match (a2 ?= b2)%Z with
                   | Eq => (a3 ?= b3)%Z
                   | c => c
                   end
           | c => c
           end
  | _, _ => None
  end.
Proof.
  destruct x as [[]|[]| |[] m1 e1], y as [[]|[]| |[] m2 e2]; try reflexivity;
    cbn [SFcompare SFkey]; f_equal.
  - change (-1 ?= -1)%Z with Eq; cbn iota.
    rewrite Z.compare_opp, (Z.compare_antisym e1 e2).
    destruct (e1 ?= e2)%Z; reflexivity.
Qed.

Lemma lex_compare_lt a1 a2 a3 b1 b2 b3 :
  match (a1 ?= b1)%Z with
  | Eq => match (a2 ?= b2)%Z with
          | Eq => (a3 ?= b3)%Z
          | c => c
          end
  | c => c
  end = Lt ↔ lex_lt (a1, a2, a3) (b1, b2, b3).
Proof.
  unfold lex_lt.
  destruct (Z.compare_spec a1 b1), (Z.compare_spec a2 b2),
    (Z.compare_spec a3 b3); split; intros; try discriminate;
    try reflexivity; lia.
Qed.

Lemma lex_compare_eq a1 a2 a3 b1 b2 b3 :
  match (a1 ?= b1)%Z with
  | Eq => match (a2 ?= b2)%Z with
          | Eq => (a3 ?= b3)%Z
          | c => c
          end
  | c => c
  end = Eq ↔ (a1, a2, a3) = (b1, b2, b3).
Proof.
  destruct (Z.compare_spec a1 b1), (Z.compare_spec a2 b2),
    (Z.compare_spec a3 b3); split; intros H'; try discriminate;
    try reflexivity; try (inversion H'; lia); subst; reflexivity.
Qed.

Lemma ltb_key x y :
  (x <? y)%float = true ↔
  ∃ a b, fkey x = Some a ∧ fkey y = Some b ∧ lex_lt a b.
Proof.
  rewrite ltb_spec. unfold SFltb, fkey. rewrite SFcompare_key.
  destruct (SFkey (Prim2SF x)) as [[[a1 a2] a3]|],
    (SFkey (Prim2SF y)) as [[[b1 b2] b3]|].
  - split.
    + intros H. exists (a1, a2, a3), (b1, b2, b3). repeat split.
      apply lex_compare_lt.
      destruct (match (a1 ?= b1)%Z with Eq => _ | _ => _ end);
        congruence.
    + intros (a & b & [= <-] & [= <-] & H).
      apply lex_compare_lt in H. rewrite H. reflexivity.
  - split; [discriminate | intros (? & ? & _ & [=] & _)].
  - split; [discriminate | intros (? & ? & [=] & _)].
  - split; [discriminate | intros (? & ? & [=] & _)].
Qed.

Lemma leb_key x y :
  (x <=? y)%float = true ↔
  ∃ a b, fkey x = Some a ∧ fkey y = Some b ∧ lex_le a b.
Proof.
  rewrite leb_spec. unfold SFleb, fkey, lex_le. rewrite SFcompare_key.
  destruct (SFkey (Prim2SF x)) as [[[a1 a2] a3]|],
    (SFkey (Prim2SF y)) as [[[b1 b2] b3]|].
  - split.
    + intros H. exists (a1, a2, a3), (b1, b2, b3). repeat split.
      rewrite <- lex_compare_lt, <- lex_compare_eq.
      destruct (match (a1 ?= b1)%Z with Eq => _ | _ => _ end);
        first [by right | by left | discriminate].
    + intros (a & b & [= <-] & [= <-] & [H | H]).
      * apply lex_compare_lt in H. rewrite H. reflexivity.
      * apply lex_compare_eq in H. rewrite H. reflexivity.
  - split; [discriminate | intros (? & ? & _ & [=] & _)].
  - split; [discriminate | intros (? & ? & [=] & _)].
  - split; [discriminate | intros (? & ? & [=] & _)].
Qed.

Section float_order.
Implicit Types x y z : float.

Local Ltac key_facts :=
  repeat match goal with
    | H : (_ <? _)%float = true |- _ =>
        apply ltb_key in H as (? & ? & ? & ? & ?)
    | H : (_ <=? _)%float = true |- _ =>
        apply leb_key in H as (? & ? & ? & ? & ?)
    end;
  simplify_eq;
  repeat match goal with
    | a : (Z * Z * Z)%type |- _ => destruct a as [[? ?] ?]
    end;
  unfold lex_le, lex_lt in *.

Lemma ltb_not_leb x y : (x <? y)%float = true → (y <=? x)%float = false.
Proof.
  intros H. destruct (y <=? x)%float eqn:E; [exfalso | done].
  key_facts. destruct_or!; simplify_eq; lia.
Qed.

Lemma leb_not_ltb x y : (x <=? y)%float = true → (y <? x)%float = false.
Proof.
  intros H. destruct (y <? x)%float eqn:E; [exfalso | done].
  key_facts. destruct_or!; simplify_eq; lia.
Qed.

Lemma leb_trans x y z :
  (x <=? y)%float = true → (y <=? z)%float = true → (x <=? z)%float = true.
Proof.
  intros H1 H2. apply leb_key. key_facts.
  eexists _, _. repeat split; [done..|].
  unfold lex_le, lex_lt. destruct_or!; simplify_eq; first [by right | left; lia].
Qed.

Lemma ltb_leb_trans x y z :
  (x <? y)%float = true → (y <=? z)%float = true → (x <? z)%float = true.
Proof.
  intros H1 H2. apply ltb_key. key_facts.
  eexists _, _. repeat split; [done..|].
  unfold lex_lt. destruct_or!; simplify_eq; lia.
Qed.

Lemma leb_ltb_trans x y z :
  (x <=? y)%float = true → (y <? z)%float = true → (x <? z)%float = true.
Proof.
  intros H1 H2. apply ltb_key. key_facts.
  eexists _, _. repeat split; [done..|].
  unfold lex_lt. destruct_or!; simplify_eq; lia.
Qed.

(** Below a smaller bound: [x <= a] and [a < b] exclude [b < x] and
    [b <= x]. *)
Lemma above_not_leb a b x :
  (a <=? b)%float = true → (b <? x)%float = true → (x <=? a)%float = false.
Proof.
  intros Hab Hbx. destruct (x <=? a)%float eqn:E; [exfalso | done].
  pose proof (leb_trans _ _ _ E Hab) as H.
  apply ltb_not_leb in Hbx. congruence.
Qed.

Lemma above_not_ltb a b x :
  (a <=? b)%float = true → (b <=? x)%float = true → (x <? a)%float = false.
Proof.
  intros Hab Hbx. destruct (x <? a)%float eqn:E; [exfalso | done].
  pose proof (ltb_leb_trans _ _ _ E Hab) as H.
  apply leb_not_ltb in Hbx. congruence.
Qed.

Lemma ltb_leb x y : (x <? y)%float = true → (x <=? y)%float = true.
Proof.
  intros H. apply leb_key. key_facts.
  eexists _, _. repeat split; [done..|]. by left.
Qed.

Lemma far_above_not_ltb a b x :
  (a <=? b)%float = true → (b <? x)%float = true → (x <? a)%float = false.
Proof. intros Hab Hbx%ltb_leb. by apply (above_not_ltb a b). Qed.

End float_order.

(** ** The table *)

Lemma REFERENCE_RANGES_lookup test ref_range :
  REFERENCE_RANGES !! test = Some ref_range →
  (test, ref_range) ∈ REFERENCE_RANGES_items.
Proof. apply elem_of_list_to_map_2. Qed.

(** The tests with an ordered list of tiers; every other entry of the
    table has bounds per sex. *)
Definition tiered_tests : list string :=
  ["LDL"; "HBA1C"; "VITAMIN_D3"; "VITAMIN_B12"].

(** The keys of an entry with bounds per sex. *)
Definition sex_bounded_keys : list string :=
  ["male"; "female"; "unit"; "low_concern"; "high_concern"].

Lemma sex_bounded_lookup_None male female unit low high k :
  k ∉ sex_bounded_keys → sex_bounded male female unit low high !! k = None.
Proof.
  unfold sex_bounded_keys, sex_bounded. intros Hk.
  repeat (rewrite lookup_insert_ne; [| intros <-; apply Hk; set_solver]).
  apply lookup_singleton_ne. intros <-; apply Hk; set_solver.
Qed.

Lemma sex_bounded_entries test ref_range :
  REFERENCE_RANGES !! test = Some ref_range →
  test ∉ tiered_tests →
  ∃ male female unit low high,
    ref_range = sex_bounded male female unit low high.
Proof.
  intros Hin%REFERENCE_RANGES_lookup Htier.
  unfold REFERENCE_RANGES_items, tiered_tests in *.
  repeat match goal with
    | H : _ ∈ _ :: _ |- _ => apply elem_of_cons in H as [[= -> ->] | H]
    | H : _ ∈ [] |- _ => by apply elem_of_nil in H
    end;
    first [ exfalso; apply Htier;
            by repeat first [apply list_elem_of_here | apply list_elem_of_further]
          | by eexists _, _, _, _, _ ].
Qed.

(** A closed string is not in a closed list of strings. *)
Local Ltac not_in_list :=
  let H := fresh in
  vm_compute; intros H;
  repeat (apply elem_of_cons in H as [H | H]; [discriminate H |]);
  by apply elem_of_nil in H.

(** ** Tiered tests *)

(** Two constants of the table in their order, by evaluation. *)
Local Ltac below a b := assert ((a <=? b)%float = true) by reflexivity.

(** C3. For every numeric LDL value [v]: [v <= 100] is normal with an
    empty concern; [100 < v <= 130] is borderline; [130 < v <= 170] is
    abnormal_high; [v > 170] is very_abnormal_high; the last three carry
    the [high_concern] text of the table.  The six boundary values
    100, 101, 130, 131, 170 and 171 fall where the tiers put them. *)
Theorem ldl_tiers (sex : string) (v : float) :
  let high_concern := FText "Elevated LDL - increased cardiovascular risk" in
  let classify x := categorize_entry sex "LDL" (VNum x) in
  ((v <=? 100)%float = true →
   classify v = Ok (Entry (VNum v) "normal" (FText ""))) ∧
  ((100 <? v)%float = true → (v <=? 130)%float = true →
   classify v = Ok (Entry (VNum v) "borderline" high_concern)) ∧
  ((130 <? v)%float = true → (v <=? 170)%float = true →
   classify v = Ok (Entry (VNum v) "abnormal_high" high_concern)) ∧
  ((170 <? v)%float = true →
   classify v = Ok (Entry (VNum v) "very_abnormal_high" high_concern)) ∧
  (λ x, status <$> classify x) <$> [100; 101; 130; 131; 170; 171]%float
  = Ok <$> ["normal"; "borderline"; "borderline";
            "abnormal_high"; "abnormal_high"; "very_abnormal_high"] ∧
  LDL_ranges !! "high_concern" = Some high_concern.
Proof.
  below 100%float 130%float. below 130%float 170%float.
  below 100%float 170%float.
  repeat split; try reflexivity.
  - intros Hle. vm_compute. by rewrite Hle.
  - intros Hgt Hle. vm_compute. by rewrite (ltb_not_leb _ _ Hgt), Hle.
  - intros Hgt Hle. vm_compute.
    by rewrite (above_not_leb 100 130 v), (ltb_not_leb _ _ Hgt), Hle.
  - intros Hgt. vm_compute.
    by rewrite (above_not_leb 100 170 v), (above_not_leb 130 170 v),
      (ltb_not_leb _ _ Hgt).
Qed.

Lemma ldl_tiers_witness :
  categorize_entry "male" "LDL" (VNum 64.5)
  = Ok (Entry (VNum 64.5) "normal" (FText "")) ∧
  categorize_entry "male" "LDL" (VNum 100.5)
  = Ok (Entry (VNum 100.5) "borderline"
          (FText "Elevated LDL - increased cardiovascular risk")) ∧
  categorize_entry "male" "LDL" (VNum 130.25)
  = Ok (Entry (VNum 130.25) "abnormal_high"
          (FText "Elevated LDL - increased cardiovascular risk")) ∧
  categorize_entry "male" "LDL" (VNum 170.5)
  = Ok (Entry (VNum 170.5) "very_abnormal_high"
          (FText "Elevated LDL - increased cardiovascular risk")).
Proof.
  split; [| split; [| split]].
  - exact (proj1 (ldl_tiers "male" 64.5) eq_refl).
  - exact (proj1 (proj2 (ldl_tiers "male" 100.5)) eq_refl eq_refl).
  - exact (proj1 (proj2 (proj2 (ldl_tiers "male" 130.25))) eq_refl eq_refl).
  - exact (proj1 (proj2 (proj2 (proj2 (ldl_tiers "male" 170.5)))) eq_refl).
Defined.

(** C4. For every numeric HBA1C value [v]: [v < 5.7] is normal with an
    empty concern; [5.7 <= v < 6.5] is borderline with concern
    "Prediabetes"; [v >= 6.5] is abnormal_high with concern
    "Diabetes mellitus".  The boundary values 5.6, 5.7, 6.4 and 6.5 fall
    where the tiers put them. *)
Theorem hba1c_tiers (sex : string) (v : float) :
  let classify x := categorize_entry sex "HBA1C" (VNum x) in
  ((v <? 5.7)%float = true →
   classify v = Ok (Entry (VNum v) "normal" (FText ""))) ∧
  ((5.7 <=? v)%float = true → (v <? 6.5)%float = true →
   classify v = Ok (Entry (VNum v) "borderline" (FText "Prediabetes"))) ∧
  ((6.5 <=? v)%float = true →
   classify v = Ok (Entry (VNum v) "abnormal_high" (FText "Diabetes mellitus"))) ∧
  (λ x, status <$> classify x) <$> [5.6; 5.7; 6.4; 6.5]%float
  = Ok <$> ["normal"; "borderline"; "borderline"; "abnormal_high"].
Proof.
  below 5.7%float 6.5%float.
  split; [| split; [| split]]; try reflexivity.
  - intros Hlt. vm_compute. by rewrite Hlt.
  - intros Hge Hlt. vm_compute. by rewrite (leb_not_ltb _ _ Hge), Hlt.
  - intros Hge. vm_compute.
    by rewrite (above_not_ltb 5.7 6.5 v), (leb_not_ltb _ _ Hge).
Qed.

Lemma hba1c_tiers_witness :
  categorize_entry "female" "HBA1C" (VNum 5.25)
  = Ok (Entry (VNum 5.25) "normal" (FText "")) ∧
  categorize_entry "female" "HBA1C" (VNum 6.0)
  = Ok (Entry (VNum 6.0) "borderline" (FText "Prediabetes")) ∧
  categorize_entry "female" "HBA1C" (VNum 7.0)
  = Ok (Entry (VNum 7.0) "abnormal_high" (FText "Diabetes mellitus")).
Proof.
  split; [| split].
  - exact (proj1 (hba1c_tiers "female" 5.25) eq_refl).
  - exact (proj1 (proj2 (hba1c_tiers "female" 6.0)) eq_refl eq_refl).
  - exact (proj1 (proj2 (proj2 (hba1c_tiers "female" 7.0))) eq_refl).
Defined.

(** C5. For every numeric VITAMIN_D3 value [v]: [v < 20] is abnormal_low
    (severe deficiency), [20 <= v < 30] is borderline_low
    (insufficiency), [30 <= v <= 80] is normal, [v > 80] is
    abnormal_high with the excess concern of the table.  For every
    numeric VITAMIN_B12 value [w]: [w < 200] is abnormal_low,
    [200 <= w <= 900] is normal, [w > 900] is abnormal_high with concern
    "Elevated B12 levels". *)
Theorem vitamin_tiers (sex : string) (v w : float) :
  let d3 x := categorize_entry sex "VITAMIN_D3" (VNum x) in
  let b12 x := categorize_entry sex "VITAMIN_B12" (VNum x) in
  ((v <? 20)%float = true →
   d3 v = Ok (Entry (VNum v) "abnormal_low" (FText "Severe Vitamin D deficiency"))) ∧
  ((20 <=? v)%float = true → (v <? 30)%float = true →
   d3 v = Ok (Entry (VNum v) "borderline_low" (FText "Vitamin D insufficiency"))) ∧
  ((30 <=? v)%float = true → (v <=? 80)%float = true →
   d3 v = Ok (Entry (VNum v) "normal" (FText ""))) ∧
  ((80 <? v)%float = true →
   d3 v = Ok (Entry (VNum v) "abnormal_high"
                (FText "Vitamin D excess - hypercalcemia risk"))) ∧
  ((w <? 200)%float = true →
   b12 w = Ok (Entry (VNum w) "abnormal_low"
                 (FText "B12 deficiency - neurological issues possible"))) ∧
  ((200 <=? w)%float = true → (w <=? 900)%float = true →
   b12 w = Ok (Entry (VNum w) "normal" (FText ""))) ∧
  ((900 <? w)%float = true →
   b12 w = Ok (Entry (VNum w) "abnormal_high" (FText "Elevated B12 levels"))) ∧
  VITAMIN_D3_ranges !! "high_concern"
  = Some (FText "Vitamin D excess - hypercalcemia risk") ∧
  VITAMIN_B12_ranges !! "low_concern"
  = Some (FText "B12 deficiency - neurological issues possible").
Proof.
  below 20%float 30%float. below 20%float 80%float.
  below 30%float 80%float. below 200%float 900%float.
  split; [| split; [| split; [| split; [| split; [| split; [| split]]]]]];
    try (split; reflexivity).
  - intros Hlt. vm_compute. by rewrite Hlt.
  - intros Hge Hlt. vm_compute. by rewrite (leb_not_ltb _ _ Hge), Hlt.
  - intros Hge Hle. vm_compute.
    by rewrite (above_not_ltb 20 30 v), (leb_not_ltb _ _ Hge), Hle.
  - intros Hgt. vm_compute.
    by rewrite (far_above_not_ltb 20 80 v), (far_above_not_ltb 30 80 v),
      (ltb_not_leb _ _ Hgt).
  - intros Hlt. vm_compute. by rewrite Hlt.
  - intros Hge Hle. vm_compute. by rewrite (leb_not_ltb _ _ Hge), Hle.
  - intros Hgt. vm_compute.
    by rewrite (far_above_not_ltb 200 900 w), (ltb_not_leb _ _ Hgt).
Qed.

Lemma vitamin_tiers_witness :
  (categorize_entry "male" "VITAMIN_D3" (VNum 12.5)
   = Ok (Entry (VNum 12.5) "abnormal_low" (FText "Severe Vitamin D deficiency")) ∧
   categorize_entry "male" "VITAMIN_D3" (VNum 20)
   = Ok (Entry (VNum 20) "borderline_low" (FText "Vitamin D insufficiency")) ∧
   categorize_entry "male" "VITAMIN_D3" (VNum 80)
   = Ok (Entry (VNum 80) "normal" (FText "")) ∧
   categorize_entry "male" "VITAMIN_D3" (VNum 80.5)
   = Ok (Entry (VNum 80.5) "abnormal_high"
           (FText "Vitamin D excess - hypercalcemia risk"))) ∧
  (categorize_entry "male" "VITAMIN_B12" (VNum 199.5)
   = Ok (Entry (VNum 199.5) "abnormal_low"
           (FText "B12 deficiency - neurological issues possible")) ∧
   categorize_entry "male" "VITAMIN_B12" (VNum 900)
   = Ok (Entry (VNum 900) "normal" (FText "")) ∧
   categorize_entry "male" "VITAMIN_B12" (VNum 901)
   = Ok (Entry (VNum 901) "abnormal_high" (FText "Elevated B12 levels"))).
Proof.
  split; [split; [| split; [| split]] | split; [| split]].
  - exact (proj1 (vitamin_tiers "male" 12.5 0) eq_refl).
  - exact (proj1 (proj2 (vitamin_tiers "male" 20 0)) eq_refl eq_refl).
  - exact (proj1 (proj2 (proj2 (vitamin_tiers "male" 80 0))) eq_refl eq_refl).
  - exact (proj1 (proj2 (proj2 (proj2 (vitamin_tiers "male" 80.5 0)))) eq_refl).
  - exact (proj1 (proj2 (proj2 (proj2 (proj2
             (vitamin_tiers "male" 0 199.5))))) eq_refl).
  - exact (proj1 (proj2 (proj2 (proj2 (proj2 (proj2
             (vitamin_tiers "male" 0 900)))))) eq_refl eq_refl).
  - exact (proj1 (proj2 (proj2 (proj2 (proj2 (proj2 (proj2
             (vitamin_tiers "male" 0 901))))))) eq_refl).
Defined.

(** ** The loop over the observations *)

(** On a fresh key [d[k] = a] appends. *)
Lemma dict_set_fresh {A} (k : string) (a : A) (d : list (string * A)) :
  k ∉ d.*1 → dict_set k a d = (d ++ [(k, a)])%list.
Proof.
  induction d as [| [k' a'] d IH]; [done |].
  cbn. intros [Hne Hk]%not_elem_of_cons.
  destruct (String.eqb_spec k' k); [congruence |]. by rewrite IH.
Qed.

(** The observations classified one by one, in their order; the first
    exception ends the run. *)
Fixpoint classify_each (sex : string) (items : list (string * value))
  : result (list (string * entry)) :=
  match items with
  | [] => Ok []
  | (test, value) :: items' =>
      e ← categorize_entry sex test value;
      es ← classify_each sex items';
      Ok ((test, e) :: es)
  end.

(** The keys of a dict are distinct: the loop stores one entry for each
    observation, under its key and at its position. *)
Lemma categorize_loop_each sex items acc :
  NoDup (acc.*1 ++ items.*1) →
  categorize_loop sex items acc
  = (es ← classify_each sex items; Ok (acc ++ es)%list).
Proof.
  revert acc. induction items as [| [test v] items IH]; intros acc Hnd.
  - cbn. by rewrite app_nil_r.
  - cbn [categorize_loop classify_each].
    destruct (categorize_entry sex test v) as [e | err]; [| done].
    cbn. rewrite dict_set_fresh.
    + rewrite IH.
      * destruct (classify_each sex items) as [es | err]; [| done].
        cbn. by rewrite <- app_assoc.
      * by rewrite fmap_app, <- app_assoc.
    + cbn in Hnd. apply NoDup_app in Hnd as (_ & Hdisj & _).
      intros Hin. apply (Hdisj _ Hin). left.
Qed.

Lemma categorize_results_each test_results patient_info :
  NoDup test_results.*1 →
  categorize_results test_results patient_info
  = classify_each (lower (default "MALE" (patient_info !! "sex"))) test_results.
Proof.
  intros Hnd. unfold categorize_results.
  rewrite categorize_loop_each by done.
  by destruct (classify_each _ _).
Qed.

(** ** Tests with bounds per sex *)

(** What the guard [isinstance(value, (int, float)) and sex in ref_range]
    lets through, and what the three comparisons then return. *)
Lemma sex_bounded_numeric sex test ref_range lo hi (v : float) :
  REFERENCE_RANGES !! test = Some ref_range →
  test ∉ tiered_tests →
  ref_range !! sex = Some (FRange lo hi) →
  ∃ low high,
    ref_range !! "low_concern" = Some low ∧
    ref_range !! "high_concern" = Some high ∧
    categorize_entry sex test (VNum v) =
    Ok (if (v <? lo)%float then Entry (VNum v) "abnormal_low" low
        else if (hi <? v)%float then Entry (VNum v) "abnormal_high" high
        else Entry (VNum v) "normal" (FText "")).
Proof.
  intros Href Htier Hsex.
  destruct (sex_bounded_entries _ _ Href Htier)
    as (male & female & unit & low & high & ->).
  exists (FText low), (FText high). split; [done | split; [done |]].
  unfold categorize_entry. rewrite Href.
  assert (∀ t, t ∈ tiered_tests → String.eqb test t = false) as Hne.
  { intros t Ht. apply String.eqb_neq. by intros ->. }
  rewrite !Hne by (unfold tiered_tests; set_solver).
  cbn [is_number]. rewrite Hsex. cbn.
  unfold py_getitem. by destruct (v <? lo)%float, (hi <? v)%float.
Qed.

(** C1. The claim: classification never raises and gives every
    observation one status; PSA 5.0 of a female patient is not classified
    by its sex-bounded rule and does not raise.  The code: the PSA entry
    has the key ["female"] with value [None], so [sex in ref_range] holds
    and unpacking [None] raises [TypeError], whatever the value. *)
Theorem psa_female_raises :
  (∀ v : float, categorize_entry "female" "PSA" (VNum v) = Raise TypeError) ∧
  categorize_results [("PSA", VNum 5.0)] {[ "sex" := "Female" ]}
  = Raise TypeError.
Proof. split; [intros v|]; reflexivity. Qed.

(** A text value of a tiered test is compared with a number before any
    [isinstance] check: [TypeError] as well. *)
Lemma tiered_text_raises (sex text : string) (test : string) :
  test ∈ tiered_tests →
  categorize_entry sex test (VStr text) = Raise TypeError.
Proof.
  unfold tiered_tests. intros Ht.
  repeat (apply elem_of_cons in Ht as [-> | Ht]; [reflexivity |]).
  by apply elem_of_nil in Ht.
Qed.

(** When the patient's sex, lowercased, is not a key of the entry (none
    of male, female, unit, low_concern, high_concern), the guard
    [sex in ref_range] fails: for every test of the table with bounds per
    sex and every numeric value the observation is stored as not_numeric
    with an empty concern. *)
Lemma unknown_sex_not_numeric (test sex : string) (v : float)
    (ref_range : gmap string field) :
  REFERENCE_RANGES !! test = Some ref_range →
  test ∉ tiered_tests →
  lower sex ∉ sex_bounded_keys →
  categorize_entry (lower sex) test (VNum v)
  = Ok (Entry (VNum v) "not_numeric" (FText "")) ∧
  categorize_results [(test, VNum v)] {[ "sex" := sex ]}
  = Ok [(test, Entry (VNum v) "not_numeric" (FText ""))].
Proof.
  intros Href Htier Hsex.
  assert (categorize_entry (lower sex) test (VNum v)
          = Ok (Entry (VNum v) "not_numeric" (FText ""))) as Hentry.
  { destruct (sex_bounded_entries _ _ Href Htier)
      as (male & female & unit & low & high & ->).
    unfold categorize_entry. rewrite Href.
    assert (∀ t, t ∈ tiered_tests → String.eqb test t = false) as Hne.
    { intros t Ht. apply String.eqb_neq. by intros ->. }
    rewrite !Hne by (unfold tiered_tests; set_solver).
    cbn [is_number]. by rewrite sex_bounded_lookup_None. }
  split; [done |].
  unfold categorize_results. rewrite lookup_singleton_eq.
  cbn [default from_option id categorize_loop]. by rewrite Hentry.
Qed.

Lemma unknown_sex_not_numeric_M_other :
  (categorize_entry (lower "M") "HAEMOGLOBIN" (VNum 14.0)
   = Ok (Entry (VNum 14.0) "not_numeric" (FText "")) ∧
   categorize_results [("HAEMOGLOBIN", VNum 14.0)] {[ "sex" := "M" ]}
   = Ok [("HAEMOGLOBIN", Entry (VNum 14.0) "not_numeric" (FText ""))]) ∧
  (categorize_entry (lower "other") "PSA" (VNum 5.0)
   = Ok (Entry (VNum 5.0) "not_numeric" (FText "")) ∧
   categorize_results [("PSA", VNum 5.0)] {[ "sex" := "other" ]}
   = Ok [("PSA", Entry (VNum 5.0) "not_numeric" (FText ""))]).
Proof.
  split.
  - apply (unknown_sex_not_numeric "HAEMOGLOBIN" "M" 14.0 _ eq_refl);
      not_in_list.
  - apply (unknown_sex_not_numeric "PSA" "other" 5.0 _ eq_refl);
      not_in_list.
Defined.

(** C9. The claim: a numeric value of a test with bounds per sex, of a
    patient whose sex is neither male nor female, is stored as
    not_numeric with an empty concern.  The code: the guard
    [sex in ref_range] looks the sex up among all the keys of the entry,
    and "unit", "low_concern" and "high_concern" are keys too.  "Unit" is
    a sex that [extract_patient_info] can return (it matches
    [[A-Za-z]+]) and that the select box does not replace; it is neither
    male nor female, passes the guard, and unpacking the text ["gm%"]
    into two bounds raises [ValueError]. *)
Theorem sex_unit_raises :
  (lower "Unit" ≠ "male") ∧ (lower "Unit" ≠ "female") ∧
  ("HAEMOGLOBIN" ∉ tiered_tests) ∧
  is_Some (REFERENCE_RANGES !! "HAEMOGLOBIN") ∧
  categorize_entry (lower "Unit") "HAEMOGLOBIN" (VNum 14.0) = Raise ValueError ∧
  categorize_results [("HAEMOGLOBIN", VNum 14.0)] {[ "sex" := "Unit" ]}
  = Raise ValueError ∧
  main_summary default_sex 40 {[ "sex" := "Unit" ]} [("HAEMOGLOBIN", VNum 14.0)]
  = Raise ValueError.
Proof.
  split; [done | split; [done |]].
  split; [not_in_list |].
  split; [by eexists | split; [| split]; reflexivity].
Qed.

(** ** The inference blocks append, and nothing else *)

Definition empty_summary : summary := Summary ∅ 0 [] [] [].

(** What a block appends, read off its run on the empty lists. *)
Definition block_risks (b : summary → summary) : list string :=
  risk_factors (b empty_summary).

Definition block_recs (b : summary → summary) : list string :=
  recommendations (b empty_summary).

Definition fires (b : summary → summary) : bool :=
  match block_risks b, block_recs b with
  | [], [] => false
  | _, _ => true
  end.

(** A block is append-only when, from every state, it leaves the other
    fields alone and extends the two lists by what it appends to the
    empty ones. *)
Definition append_only (b : summary → summary) : Prop :=
  ∀ s, b s = Summary (patient_info_of s) (abnormal_count s) (abnormal_tests s)
               (risk_factors s ++ block_risks b)
               (recommendations s ++ block_recs b).

Local Ltac append_only_tac :=
  let s := fresh "s" in
  intros s; unfold block_risks, block_recs;
  repeat case_match;
  destruct s; unfold append_rec, append_risk; cbn;
  rewrite ?app_nil_r, <- ?app_assoc; reflexivity.

Section append_only.
Variable cr : list (string * entry).
Variable pi : gmap string string.

Lemma check_anemia_append_only : append_only (check_anemia cr).
Proof. unfold check_anemia. append_only_tac. Qed.

Lemma check_infection_append_only : append_only (check_infection cr).
Proof. unfold check_infection. append_only_tac. Qed.

Lemma check_lipids_append_only : append_only (check_lipids cr).
Proof. unfold check_lipids. append_only_tac. Qed.

Lemma check_diabetes_append_only : append_only (check_diabetes cr).
Proof. unfold check_diabetes. append_only_tac. Qed.

Lemma check_prostate_append_only : append_only (check_prostate cr pi).
Proof. unfold check_prostate. append_only_tac. Qed.

Lemma check_vitamin_d_append_only : append_only (check_vitamin_d cr).
Proof. unfold check_vitamin_d. append_only_tac. Qed.

Lemma check_vitamin_b12_append_only : append_only (check_vitamin_b12 cr).
Proof. unfold check_vitamin_b12. append_only_tac. Qed.

Lemma check_kidney_append_only : append_only (check_kidney cr).
Proof. unfold check_kidney. append_only_tac. Qed.

Lemma check_liver_append_only : append_only (check_liver cr).
Proof. unfold check_liver. append_only_tac. Qed.

Lemma check_thyroid_append_only : append_only (check_thyroid cr).
Proof. unfold check_thyroid. append_only_tac. Qed.

Lemma inference_blocks_append_only :
  Forall append_only (inference_blocks cr pi).
Proof.
  repeat constructor;
    auto using check_anemia_append_only, check_infection_append_only,
      check_lipids_append_only, check_diabetes_append_only,
      check_prostate_append_only, check_vitamin_d_append_only,
      check_vitamin_b12_append_only, check_kidney_append_only,
      check_liver_append_only, check_thyroid_append_only.
Qed.

End append_only.

(** ** Dicts as finite maps *)

Lemma dict_get_list_to_map {A} (d : list (string * A)) (k : string) :
  dict_get k d = (list_to_map d : gmap string A) !! k.
Proof.
  induction d as [| [k' a] d IH]; [done |].
  cbn [dict_get list_to_map foldr uncurry]. rewrite lookup_insert.
  destruct (String.eqb_spec k' k) as [-> | Hne].
  - by rewrite decide_True.
  - by rewrite decide_False.
Qed.

Lemma dict_get_elem_of {A} (d : list (string * A)) (k : string) (a : A) :
  dict_get k d = Some a → (k, a) ∈ d.
Proof. rewrite dict_get_list_to_map. apply elem_of_list_to_map_2. Qed.

(** The same items in another order are the same dict to [dict_get]. *)
Lemma dict_get_perm {A} (d d' : list (string * A)) (k : string) :
  NoDup d.*1 → d' ≡ₚ d → dict_get k d' = dict_get k d.
Proof.
  intros Hnd Hperm. rewrite !dict_get_list_to_map.
  by rewrite (list_to_map_proper (M:=gmap string) d d' Hnd).
Qed.

(** ** The lists of the summary *)

Definition run (bs : list (summary → summary)) (s : summary) : summary :=
  foldl (λ s b, b s) s bs.

Lemma run_append_only bs s :
  Forall append_only bs →
  run bs s = Summary (patient_info_of s) (abnormal_count s) (abnormal_tests s)
               (risk_factors s ++ concat (block_risks <$> bs))
               (recommendations s ++ concat (block_recs <$> bs)).
Proof.
  intros Hbs. revert s.
  induction Hbs as [| b bs Hb _ IH]; intros s.
  - destruct s; cbn. by rewrite !app_nil_r.
  - cbn [run foldl]. fold (run bs (b s)). rewrite IH, (Hb s). cbn.
    by rewrite <- !app_assoc.
Qed.

Lemma create_summary_run cr pi :
  create_summary cr pi
  = no_risk_factors (run (inference_blocks cr pi) (initial_summary cr pi)).
Proof. reflexivity. Qed.

Definition all_risks cr pi : list string :=
  concat (block_risks <$> inference_blocks cr pi).

Definition all_recs cr pi : list string :=
  concat (block_recs <$> inference_blocks cr pi).

Lemma create_summary_lists cr pi :
  create_summary cr pi
  = Summary pi (length (dict_filter is_flagged cr)) (dict_filter is_flagged cr)
      (match all_risks cr pi with
       | [] => ["No significant risk factors identified"]
       | _ :: _ => all_risks cr pi
       end)
      (match all_risks cr pi with
       | [] => all_recs cr pi ++
               ["Routine follow-up as per age and gender appropriate guidelines"]
       | _ :: _ => all_recs cr pi
       end).
Proof.
  rewrite create_summary_run,
    (run_append_only _ _ (inference_blocks_append_only cr pi)).
  change (concat (block_risks <$> inference_blocks cr pi))
    with (all_risks cr pi).
  change (concat (block_recs <$> inference_blocks cr pi))
    with (all_recs cr pi).
  unfold no_risk_factors, initial_summary.
  cbn [risk_factors recommendations patient_info_of abnormal_count
       abnormal_tests app].
  by destruct (all_risks cr pi).
Qed.

(** A block that appends a recommendation appends a risk factor. *)
Lemma block_recs_nil cr pi b :
  b ∈ inference_blocks cr pi → block_risks b = [] → block_recs b = [].
Proof.
  unfold inference_blocks. intros Hb.
  repeat (apply elem_of_cons in Hb as [-> | Hb]);
    [.. | by apply elem_of_nil in Hb];
    unfold block_risks, block_recs, check_anemia, check_infection,
      check_lipids, check_diabetes, check_prostate, check_vitamin_d,
      check_vitamin_b12, check_kidney, check_liver, check_thyroid;
    repeat case_match; done.
Qed.

Lemma all_recs_nil cr pi : all_risks cr pi = [] → all_recs cr pi = [].
Proof.
  unfold all_risks, all_recs.
  assert (Forall (λ b, b ∈ inference_blocks cr pi) (inference_blocks cr pi))
    as Hall by (by apply Forall_forall).
  revert Hall. generalize (inference_blocks cr pi) at 2 3 4.
  induction 1 as [| b bs Hb _ IH]; [done |].
  cbn. intros [Hr Hrs]%app_eq_nil.
  by rewrite (block_recs_nil _ _ _ Hb Hr), IH.
Qed.

(** The blocks read [categorized_results] through [dict_get] only. *)
Lemma all_risks_recs_ext cr cr' pi :
  (∀ k, dict_get k cr' = dict_get k cr) →
  all_risks cr' pi = all_risks cr pi ∧ all_recs cr' pi = all_recs cr pi.
Proof.
  intros H.
  unfold all_risks, all_recs, inference_blocks, block_risks, block_recs,
    check_anemia, check_infection, check_lipids, check_diabetes,
    check_prostate, check_vitamin_d, check_vitamin_b12, check_kidney,
    check_liver, check_thyroid, has_lipid_concerns, liver_concerns, status_is.
  by rewrite !H.
Qed.

(** A status the blocks test for marks the entry as abnormal. *)
Lemma status_is_flagged cr test st :
  status_is cr test st = true →
  contains "abnormal" st || contains "borderline" st = true →
  ∃ e, (test, e) ∈ cr ∧ is_flagged e = true.
Proof.
  unfold status_is. destruct (dict_get test cr) as [e |] eqn:He; [| done].
  intros <-%String.eqb_eq Hst. exists e.
  split; [by apply dict_get_elem_of | done].
Qed.

Lemma dict_filter_nil {A} (p : A → bool) (d : list (string * A)) :
  (∀ k a, (k, a) ∈ d → p a = false) → dict_filter p d = [].
Proof.
  intros H. unfold dict_filter.
  induction d as [| [k a] d IH]; [done |].
  cbn. rewrite (H k a) by left. apply IH. intros k' a' Hin.
  apply (H k'). by right.
Qed.

(** Without an abnormal or borderline status, no block appends. *)
Lemma no_flag_no_risk cr pi :
  (∀ k e, (k, e) ∈ cr → is_flagged e = false) → all_risks cr pi = [].
Proof.
  intros Hno.
  assert (∀ test st, contains "abnormal" st || contains "borderline" st = true →
                     status_is cr test st = false) as Hst.
  { intros test st Hc. destruct (status_is cr test st) eqn:E; [| done].
    destruct (status_is_flagged _ _ _ E Hc) as (e & Hin & Hf).
    by rewrite (Hno _ _ Hin) in Hf. }
  assert (∀ test e st, dict_get test cr = Some e →
                       contains "abnormal" st || contains "borderline" st = true →
                       String.eqb (status e) st = false) as Hget.
  { intros test e st He Hc. specialize (Hst test st Hc).
    unfold status_is in Hst. by rewrite He in Hst. }
  unfold all_risks, inference_blocks, block_risks,
    check_anemia, check_infection, check_lipids, check_diabetes,
    check_prostate, check_vitamin_d, check_vitamin_b12, check_kidney,
    check_liver, check_thyroid, has_lipid_concerns, liver_concerns.
  rewrite !Hst by reflexivity.
  destruct (dict_get "HBA1C" cr) as [e1 |] eqn:E1,
    (dict_get "VITAMIN_D3" cr) as [e2 |] eqn:E2,
    (dict_get "TSH" cr) as [e3 |] eqn:E3;
    rewrite ?(Hget _ _ "borderline" E1), ?(Hget _ _ "abnormal_high" E1),
      ?(Hget _ _ "abnormal_low" E2), ?(Hget _ _ "borderline_low" E2),
      ?(Hget _ _ "abnormal_high" E3), ?(Hget _ _ "abnormal_low" E3)
      by reflexivity;
    by destruct (String.eqb _ "MALE").
Qed.

Lemma dict_filter_elem_of {A} (p : A → bool) (d : list (string * A)) k a :
  (k, a) ∈ dict_filter p d ↔ (k, a) ∈ d ∧ p a = true.
Proof.
  unfold dict_filter. rewrite !list_elem_of_In, filter_In. done.
Qed.

Lemma dict_filter_sublist {A} (p : A → bool) (d : list (string * A)) :
  sublist (dict_filter p d) d.
Proof.
  unfold dict_filter. induction d as [| [k a] d IH]; [constructor |].
  cbn. destruct (p a); by constructor.
Qed.

Lemma no_fire_no_risk cr pi :
  Forall (λ b, fires b = false) (inference_blocks cr pi) →
  all_risks cr pi = [].
Proof.
  unfold all_risks. generalize (inference_blocks cr pi).
  induction 1 as [| b bs Hb _ IH]; [done |].
  cbn. rewrite IH, app_nil_r. unfold fires in Hb.
  by destruct (block_risks b).
Qed.

(** ** The summary *)

(** C7. [abnormal_tests] is the sub-dict of the classified observations
    whose status contains "abnormal" or "borderline", in their order,
    and [abnormal_count] is its size.  When no inference block fires the
    two lists are the sentinel pair; in particular, without any abnormal
    or borderline observation the risk factors are the sentinel alone
    and the count is 0. *)
Theorem abnormal_tests_and_sentinel (cr : list (string * entry))
    (pi : gmap string string) :
  let s := create_summary cr pi in
  let flagged (e : entry) :=
    contains "abnormal" (status e) = true ∨
    contains "borderline" (status e) = true in
  (∀ k e, (k, e) ∈ abnormal_tests s ↔ (k, e) ∈ cr ∧ flagged e) ∧
  sublist (abnormal_tests s) cr ∧
  abnormal_count s = length (abnormal_tests s) ∧
  (Forall (λ b, fires b = false) (inference_blocks cr pi) →
   risk_factors s = ["No significant risk factors identified"] ∧
   recommendations s
   = ["Routine follow-up as per age and gender appropriate guidelines"]) ∧
  ((∀ k e, (k, e) ∈ cr → ¬ flagged e) →
   risk_factors s = ["No significant risk factors identified"] ∧
   recommendations s
   = ["Routine follow-up as per age and gender appropriate guidelines"] ∧
   abnormal_tests s = [] ∧
   abnormal_count s = 0).
Proof.
  intros s flagged. unfold s. rewrite create_summary_lists.
  cbn [abnormal_tests abnormal_count risk_factors recommendations].
  assert (∀ e, is_flagged e = true ↔ flagged e) as Hflag.
  { intros e. unfold is_flagged, flagged. by rewrite orb_true_iff. }
  split; [| split; [| split; [| split]]].
  - intros k e. by rewrite dict_filter_elem_of, Hflag.
  - apply dict_filter_sublist.
  - reflexivity.
  - intros Hno%no_fire_no_risk.
    by rewrite (all_recs_nil _ _ Hno), Hno.
  - intros Hno.
    assert (∀ k e, (k, e) ∈ cr → is_flagged e = false) as Hno'.
    { intros k e Hin. apply not_true_is_false. rewrite Hflag.
      by apply (Hno k). }
    pose proof (no_flag_no_risk cr pi Hno') as Hnil.
    rewrite (all_recs_nil _ _ Hnil), Hnil, (dict_filter_nil _ _ Hno').
    done.
Qed.

Lemma abnormal_tests_and_sentinel_witness :
  let cr := [("HAEMOGLOBIN", Entry (VNum 14.0) "normal" (FText ""));
             ("ECG_RHYTHM", Entry (VStr "Sinus") "no_reference" (FText ""))] in
  let s := create_summary cr {[ "sex" := "Male" ]} in
  (risk_factors s = ["No significant risk factors identified"] ∧
   recommendations s
   = ["Routine follow-up as per age and gender appropriate guidelines"]) ∧
  (risk_factors s = ["No significant risk factors identified"] ∧
   recommendations s
   = ["Routine follow-up as per age and gender appropriate guidelines"] ∧
   abnormal_tests s = [] ∧
   abnormal_count s = 0).
Proof.
  intros cr s.
  destruct (abnormal_tests_and_sentinel cr {[ "sex" := "Male" ]})
    as (_ & _ & _ & Hfire & Hflag).
  split.
  - apply Hfire. repeat constructor.
  - apply Hflag. intros k e Hin.
    repeat (apply elem_of_cons in Hin as [[= -> ->] | Hin];
            [intros [? | ?]; discriminate |]).
    by apply elem_of_nil in Hin.
Defined.

(** C8. Every block only appends, and what it appends does not depend
    on the lists it appends to: the two lists of the summary are the
    concatenation, in the order anemia, leukocytes, dyslipidemia,
    diabetes, prostate, vitamin D, vitamin B12, kidney, liver, thyroid,
    of what each block appends, with no entry removed or merged,
    followed by the sentinel when no risk factor was appended.  They are
    the same for every order of the keys of the input dict.  The
    diabetes block appends the same entries after the dyslipidemia block
    as it does alone. *)
Theorem blocks_append_in_order (cr : list (string * entry))
    (pi : gmap string string) :
  let blocks :=
    [ check_anemia cr; check_infection cr; check_lipids cr;
      check_diabetes cr; check_prostate cr pi; check_vitamin_d cr;
      check_vitamin_b12 cr; check_kidney cr; check_liver cr;
      check_thyroid cr ] in
  let risks := concat (block_risks <$> blocks) in
  let recs := concat (block_recs <$> blocks) in
  (∀ b s, b ∈ blocks →
     risk_factors (b s) = (risk_factors s ++ block_risks b)%list ∧
     recommendations (b s) = (recommendations s ++ block_recs b)%list) ∧
  risk_factors (create_summary cr pi)
  = (if decide (risks = []) then ["No significant risk factors identified"]
     else risks) ∧
  recommendations (create_summary cr pi)
  = (if decide (risks = [])
     then (recs ++
           ["Routine follow-up as per age and gender appropriate guidelines"])%list
     else recs) ∧
  (∀ cr', NoDup cr.*1 → cr' ≡ₚ cr →
     risk_factors (create_summary cr' pi) = risk_factors (create_summary cr pi) ∧
     recommendations (create_summary cr' pi)
     = recommendations (create_summary cr pi)) ∧
  (∀ s,
     risk_factors (check_diabetes cr (check_lipids cr s))
     = (risk_factors (check_lipids cr s) ++ block_risks (check_diabetes cr))%list ∧
     recommendations (check_diabetes cr (check_lipids cr s))
     = (recommendations (check_lipids cr s)
        ++ block_recs (check_diabetes cr))%list).
Proof.
  intros blocks risks recs.
  change blocks with (inference_blocks cr pi) in *.
  change risks with (all_risks cr pi). change recs with (all_recs cr pi).
  pose proof (inference_blocks_append_only cr pi) as Hall.
  split; [| split; [| split; [| split]]].
  - intros b s Hb. rewrite Forall_forall in Hall.
    by rewrite (Hall b Hb s).
  - rewrite create_summary_lists. cbn [risk_factors].
    by destruct (all_risks cr pi); case_decide.
  - rewrite create_summary_lists. cbn [recommendations].
    by destruct (all_risks cr pi); case_decide.
  - intros cr' Hnd Hperm.
    destruct (all_risks_recs_ext cr cr' pi) as [Hr Hc].
    { intros k. by apply dict_get_perm. }
    rewrite !create_summary_lists. cbn [risk_factors recommendations].
    by rewrite Hr, Hc.
  - intros s. by rewrite (check_diabetes_append_only cr (check_lipids cr s)).
Qed.

Lemma blocks_append_in_order_witness :
  let ldl := Entry (VNum 150) "abnormal_high"
               (FText "Elevated LDL - increased cardiovascular risk") in
  let hba1c := Entry (VNum 6.0) "borderline" (FText "Prediabetes") in
  let cr := [("LDL", ldl); ("HBA1C", hba1c)] in
  let cr' := [("HBA1C", hba1c); ("LDL", ldl)] in
  (risk_factors (check_diabetes cr empty_summary)
   = (risk_factors empty_summary ++ block_risks (check_diabetes cr))%list ∧
   recommendations (check_diabetes cr empty_summary)
   = (recommendations empty_summary ++ block_recs (check_diabetes cr))%list) ∧
  (risk_factors (create_summary cr' ∅) = risk_factors (create_summary cr ∅) ∧
   recommendations (create_summary cr' ∅)
   = recommendations (create_summary cr ∅)) ∧
  risk_factors (create_summary cr ∅)
  = ["Dyslipidemia - increased cardiovascular risk"; "Prediabetes"] ∧
  recommendations (create_summary cr ∅)
  = ["Lifestyle modifications recommended; consider dietary changes and exercise";
     "Lifestyle modifications recommended; consider dietary changes and exercise";
     "Follow-up HbA1c test in 3-6 months"].
Proof.
  intros ldl hba1c cr cr'.
  destruct (blocks_append_in_order cr ∅) as (Happ & Hrisk & Hrec & Hperm & _).
  split; [| split; [| split]].
  - apply Happ. do 3 apply list_elem_of_further. apply list_elem_of_here.
  - apply Hperm.
    + apply NoDup_cons. split; [| apply NoDup_singleton].
      by intros [=]%list_elem_of_singleton.
    + apply perm_swap.
  - rewrite Hrisk. reflexivity.
  - rewrite Hrec. reflexivity.
Defined.

(** ** Anemia *)

(** C6, as the code has it.  When HAEMOGLOBIN is abnormal_low and MCV is
    among the classified observations, the anemia block appends one risk
    factor chosen by the status of MCV: abnormal_low gives the
    microcytic wording and an iron-deficiency recommendation,
    abnormal_high the macrocytic wording and a B12/folate
    recommendation, anything else "Normocytic anemia possible" and no
    recommendation.  When MCV is absent the block appends nothing.
    HAEMOGLOBIN 11.0 and MCV 70 of a male patient give the microcytic
    risk factor and the iron-deficiency recommendation. *)
Theorem anemia_block :
  (∀ (cr : list (string * entry)) (s : summary) (mcv : entry),
     status_is cr "HAEMOGLOBIN" "abnormal_low" = true →
     dict_get "MCV" cr = Some mcv →
     (status mcv = "abnormal_low" →
      check_anemia cr s
      = (s |> append_risk "Microcytic anemia possible - consider iron deficiency"
           |> append_rec
                "Further investigation for iron deficiency anemia recommended")) ∧
     (status mcv = "abnormal_high" →
      check_anemia cr s
      = (s |> append_risk
                "Macrocytic anemia possible - consider B12/folate deficiency"
           |> append_rec
                "Further investigation for vitamin B12 or folate deficiency recommended")) ∧
     (status mcv ≠ "abnormal_low" → status mcv ≠ "abnormal_high" →
      check_anemia cr s = append_risk "Normocytic anemia possible" s)) ∧
  (∀ (cr : list (string * entry)) (s : summary),
     dict_get "MCV" cr = None → check_anemia cr s = s) ∧
  ∃ cr,
    categorize_results [("HAEMOGLOBIN", VNum 11.0); ("MCV", VNum 70)]
      {[ "sex" := "Male" ]} = Ok cr ∧
    status <$> dict_get "HAEMOGLOBIN" cr = Some "abnormal_low" ∧
    status <$> dict_get "MCV" cr = Some "abnormal_low" ∧
    "Microcytic anemia possible - consider iron deficiency"
      ∈ risk_factors (create_summary cr {[ "sex" := "Male" ]}) ∧
    "Further investigation for iron deficiency anemia recommended"
      ∈ recommendations (create_summary cr {[ "sex" := "Male" ]}).
Proof.
  split; [| split].
  - intros cr s mcv Hhb Hmcv. unfold check_anemia. rewrite Hhb, Hmcv.
    split; [| split].
    + by intros ->.
    + by intros ->.
    + intros H1%String.eqb_neq H2%String.eqb_neq. by rewrite H1, H2.
  - intros cr s Hmcv. unfold check_anemia. rewrite Hmcv.
    by destruct (status_is cr _ _).
  - eexists. split; [reflexivity |].
    split; [reflexivity |]. split; [reflexivity |].
    split; apply list_elem_of_here.
Qed.

Lemma anemia_block_witness :
  let hb := Entry (VNum 11.0) "abnormal_low" (FText "Anemia possible") in
  let low := Entry (VNum 70) "abnormal_low" (FText "Microcytic anemia possible") in
  let high := Entry (VNum 104) "abnormal_high" (FText "Macrocytic anemia possible") in
  let mid := Entry (VNum 85) "normal" (FText "") in
  check_anemia [("HAEMOGLOBIN", hb); ("MCV", low)] empty_summary
  = Summary ∅ 0 [] ["Microcytic anemia possible - consider iron deficiency"]
      ["Further investigation for iron deficiency anemia recommended"] ∧
  check_anemia [("HAEMOGLOBIN", hb); ("MCV", high)] empty_summary
  = Summary ∅ 0 [] ["Macrocytic anemia possible - consider B12/folate deficiency"]
      ["Further investigation for vitamin B12 or folate deficiency recommended"] ∧
  check_anemia [("HAEMOGLOBIN", hb); ("MCV", mid)] empty_summary
  = Summary ∅ 0 [] ["Normocytic anemia possible"] [].
Proof.
  intros hb low high mid.
  destruct anemia_block as (Hmcv & _ & _).
  split; [| split].
  - exact (proj1 (Hmcv [("HAEMOGLOBIN", hb); ("MCV", low)] empty_summary low
                    eq_refl eq_refl) eq_refl).
  - exact (proj1 (proj2 (Hmcv [("HAEMOGLOBIN", hb); ("MCV", high)] empty_summary
                           high eq_refl eq_refl)) eq_refl).
  - refine (proj2 (proj2 (Hmcv [("HAEMOGLOBIN", hb); ("MCV", mid)] empty_summary
                            mid eq_refl eq_refl)) _ _); discriminate.
Defined.

(** C6, as the claim states it, fails: HAEMOGLOBIN is abnormal_low, MCV
    was not extracted, and the anemia block appends nothing. *)
Lemma anemia_without_mcv :
  let cr := [("HAEMOGLOBIN",
              Entry (VNum 11.0) "abnormal_low" (FText "Anemia possible"))] in
  categorize_results [("HAEMOGLOBIN", VNum 11.0)] {[ "sex" := "Male" ]} = Ok cr ∧
  status_is cr "HAEMOGLOBIN" "abnormal_low" = true ∧
  check_anemia cr empty_summary = empty_summary ∧
  risk_factors (create_summary cr {[ "sex" := "Male" ]})
  = ["No significant risk factors identified"].
Proof. repeat split. Qed.

Lemma quiet_blocks (bs : list (summary → summary)) :
  Forall (λ b, fires b = false) bs →
  concat (block_risks <$> bs) = [] ∧ concat (block_recs <$> bs) = [].
Proof.
  induction 1 as [| b bs Hb _ [IHr IHc]]; [done |].
  unfold fires in Hb. cbn. rewrite IHr, IHc.
  by destruct (block_risks b), (block_recs b).
Qed.

(** C10. HAEMOGLOBIN abnormal_low, MCV present with a status that is
    neither abnormal_low nor abnormal_high, and no other block firing:
    the risk factors are "Normocytic anemia possible" alone, the
    recommendations are empty, and the sentinel pair is not appended. *)
Theorem normocytic_without_recommendation (cr : list (string * entry))
    (pi : gmap string string) (mcv : entry) :
  status_is cr "HAEMOGLOBIN" "abnormal_low" = true →
  dict_get "MCV" cr = Some mcv →
  status mcv ≠ "abnormal_low" →
  status mcv ≠ "abnormal_high" →
  Forall (λ b, fires b = false)
    [ check_infection cr; check_lipids cr; check_diabetes cr;
      check_prostate cr pi; check_vitamin_d cr; check_vitamin_b12 cr;
      check_kidney cr; check_liver cr; check_thyroid cr ] →
  risk_factors (create_summary cr pi) = ["Normocytic anemia possible"] ∧
  recommendations (create_summary cr pi) = [].
Proof.
  intros Hhb Hmcv H1%String.eqb_neq H2%String.eqb_neq Hothers.
  rewrite create_summary_lists. cbn [risk_factors recommendations].
  assert (block_risks (check_anemia cr) = ["Normocytic anemia possible"] ∧
          block_recs (check_anemia cr) = []) as [Hr Hc].
  { unfold block_risks, block_recs, check_anemia.
    by rewrite Hhb, Hmcv, H1, H2. }
  assert (all_risks cr pi = ["Normocytic anemia possible"] ∧
          all_recs cr pi = []) as [-> ->]; [| done].
  destruct (quiet_blocks _ Hothers) as [Hqr Hqc].
  unfold all_risks, all_recs, inference_blocks.
  rewrite (fmap_cons block_risks), (fmap_cons block_recs). cbn [concat].
  by rewrite Hr, Hc, Hqr, Hqc.
Qed.

Lemma normocytic_without_recommendation_witness :
  ∃ cr,
    categorize_results [("HAEMOGLOBIN", VNum 12.0); ("MCV", VNum 85)]
      {[ "sex" := "Male" ]} = Ok cr ∧
    risk_factors (create_summary cr {[ "sex" := "Male" ]})
    = ["Normocytic anemia possible"] ∧
    recommendations (create_summary cr {[ "sex" := "Male" ]}) = [].
Proof.
  eexists. split; [reflexivity |].
  apply (normocytic_without_recommendation _ _ (Entry (VNum 85) "normal" (FText "")));
    [reflexivity | reflexivity | discriminate | discriminate |].
  repeat constructor.
Defined.

(** ** Prostate *)

(** With a sex that uppercases to "MALE", PSA abnormal_high appends the
    elevated-PSA risk factor and the urology recommendation. *)
Lemma check_prostate_male cr pi sex s :
  pi !! "sex" = Some sex →
  upper sex = "MALE" →
  status_is cr "PSA" "abnormal_high" = true →
  check_prostate cr pi s
  = (s |> append_risk "Elevated PSA - prostate abnormality possible"
       |> append_rec "Urologist consultation recommended").
Proof.
  intros Hsex Hupper Hpsa. unfold check_prostate.
  by rewrite Hsex, Hpsa; cbn [default from_option id]; rewrite Hupper.
Qed.

(** [create_summary] on its own falls back on the empty string where
    [categorize_results] falls back on "MALE": called with a
    [patient_info] that holds no sex, it skips the prostate block for a
    PSA that was classified abnormal_high as a male patient's.  [main]
    never makes that call: [use_user_input] stores a sex first. *)
Lemma create_summary_without_sex :
  (∀ (cr : list (string * entry)) (s : summary), check_prostate cr ∅ s = s) ∧
  ∃ cr,
    categorize_results [("PSA", VNum 5.0)] ∅ = Ok cr ∧
    status_is cr "PSA" "abnormal_high" = true ∧
    abnormal_count (create_summary cr ∅) = 1 ∧
    risk_factors (create_summary cr ∅)
    = ["No significant risk factors identified"] ∧
    recommendations (create_summary cr ∅)
    = ["Routine follow-up as per age and gender appropriate guidelines"].
Proof.
  split; [reflexivity |].
  eexists. split; [reflexivity |]. repeat split.
Qed.

(** * Further properties *)

Local Ltac in_list :=
  repeat first [apply list_elem_of_here | apply list_elem_of_further].

(** ** Bounds per sex *)

(** Only the keys ["male"] and ["female"] of an entry hold bounds. *)
Lemma sex_bounded_range male female unit low high sex lo hi :
  sex_bounded male female unit low high !! sex = Some (FRange lo hi) →
  (sex = "male" ∧ male = FRange lo hi) ∨
  (sex = "female" ∧ female = FRange lo hi).
Proof.
  unfold sex_bounded. rewrite !lookup_insert.
  repeat case_decide; subst; try done.
  - intros [= ->]. by left.
  - intros [= ->]. by right.
  - rewrite lookup_singleton. by case_decide.
Qed.

(** Every pair of bounds of the table is ordered, so the abnormal_low
    and the abnormal_high band of a test never meet. *)
Lemma table_bounds_ordered test ref_range sex lo hi :
  REFERENCE_RANGES !! test = Some ref_range →
  test ∉ tiered_tests →
  ref_range !! sex = Some (FRange lo hi) →
  (lo <=? hi)%float = true.
Proof.
  intros Hin%REFERENCE_RANGES_lookup Htier Hsex.
  unfold REFERENCE_RANGES_items, tiered_tests in *.
  repeat match goal with
    | H : _ ∈ _ :: _ |- _ => apply elem_of_cons in H as [[= -> ->] | H]
    | H : _ ∈ [] |- _ => by apply elem_of_nil in H
    end;
    first [ exfalso; apply Htier; by in_list
          | apply sex_bounded_range in Hsex as [[_ [= <- <-]] | [_ Hf]];
            [reflexivity | first [ by injection Hf as <- <- | discriminate Hf ]] ].
Qed.

(** X1. The rule of a test with bounds per sex.  For every such test of
    the table, every sex for which the entry holds bounds [(lo, hi)] and
    every numeric value [v]: [v < lo] is abnormal_low with the entry's
    low concern, [v > hi] is abnormal_high with its high concern, and
    [lo <= v <= hi] is normal with an empty concern; both bounds belong
    to the normal band. *)
Theorem sex_bounded_rule (test sex : string) (ref_range : gmap string field)
    (lo hi v : float) :
  REFERENCE_RANGES !! test = Some ref_range →
  test ∉ tiered_tests →
  ref_range !! sex = Some (FRange lo hi) →
  ∃ low high,
    ref_range !! "low_concern" = Some (FText low) ∧
    ref_range !! "high_concern" = Some (FText high) ∧
    ((v <? lo)%float = true →
     categorize_entry sex test (VNum v)
     = Ok (Entry (VNum v) "abnormal_low" (FText low))) ∧
    ((hi <? v)%float = true →
     categorize_entry sex test (VNum v)
     = Ok (Entry (VNum v) "abnormal_high" (FText high))) ∧
    ((lo <=? v)%float = true → (v <=? hi)%float = true →
     categorize_entry sex test (VNum v)
     = Ok (Entry (VNum v) "normal" (FText ""))).
Proof.
  intros Href Htier Hsex.
  pose proof (table_bounds_ordered _ _ _ _ _ Href Htier Hsex) as Hord.
  destruct (sex_bounded_numeric sex test ref_range lo hi v Href Htier Hsex)
    as (low & high & Hlow & Hhigh & ->).
  destruct (sex_bounded_entries _ _ Href Htier)
    as (male & female & unit & l & h & ->).
  exists l, h.
  assert (low = FText l ∧ high = FText h) as [-> ->].
  { split; [by injection Hlow as <- | by injection Hhigh as <-]. }
  split; [done | split; [done |]].
  split; [| split].
  - by intros ->.
  - intros Hgt. by rewrite (far_above_not_ltb lo hi v), Hgt.
  - intros Hge Hle.
    by rewrite (leb_not_ltb _ _ Hge), (leb_not_ltb _ _ Hle).
Qed.

Lemma sex_bounded_rule_witness :
  categorize_entry "male" "HAEMOGLOBIN" (VNum 12.5)
  = Ok (Entry (VNum 12.5) "abnormal_low" (FText "Anemia possible")) ∧
  categorize_entry "female" "CREATININE" (VNum 1.2)
  = Ok (Entry (VNum 1.2) "abnormal_high"
          (FText "Elevated creatinine - possible kidney dysfunction")) ∧
  categorize_entry "male" "PSA" (VNum 4.0)
  = Ok (Entry (VNum 4.0) "normal" (FText "")).
Proof.
  split; [| split].
  - destruct (sex_bounded_rule "HAEMOGLOBIN" "male" _ 13.0 16.5 12.5 eq_refl)
      as (low & high & [= <-] & _ & H & _);
      [not_in_list | reflexivity |]. exact (H eq_refl).
  - destruct (sex_bounded_rule "CREATININE" "female" _ 0.6 1.1 1.2 eq_refl)
      as (low & high & _ & [= <-] & _ & H & _);
      [not_in_list | reflexivity |]. exact (H eq_refl).
  - destruct (sex_bounded_rule "PSA" "male" _ 0 4.0 4.0 eq_refl)
      as (low & high & _ & _ & _ & _ & H);
      [not_in_list | reflexivity |]. exact (H eq_refl eq_refl).
Defined.

(** ** What a classification returns, and when it raises *)

(** The statuses [categorize_results] writes. *)
Definition statuses : list string :=
  ["normal"; "borderline"; "borderline_low"; "abnormal_low"; "abnormal_high";
   "very_abnormal_high"; "not_numeric"; "no_reference"].

Lemma tiered_cases test :
  test ∈ tiered_tests →
  test = "LDL" ∨ test = "HBA1C" ∨ test = "VITAMIN_D3" ∨ test = "VITAMIN_B12".
Proof.
  unfold tiered_tests. rewrite !elem_of_cons, elem_of_nil. tauto.
Qed.

Lemma not_tiered_eqb test t :
  test ∉ tiered_tests → t ∈ tiered_tests → String.eqb test t = false.
Proof. intros Hn Ht. apply String.eqb_neq. by intros ->. Qed.

(** X2. Whatever the sex, the test and the value, an entry that
    [categorize_results] stores keeps the observation's value and has one
    of the eight statuses. *)
Theorem entry_value_and_status (sex test : string) (v : value) (e : entry) :
  categorize_entry sex test v = Ok e →
  value_of e = v ∧ status e ∈ statuses.
Proof.
  unfold statuses.
  destruct (decide (test ∈ tiered_tests)) as [Ht | Ht].
  - apply tiered_cases in Ht as [-> | [-> | [-> | ->]]];
      destruct v as [x | s]; intros H; vm_compute in H;
      repeat case_match; simplify_eq; (split; [reflexivity | cbn; in_list]).
  - unfold categorize_entry.
    destruct (REFERENCE_RANGES !! test) as [rr |] eqn:Href.
    + destruct (sex_bounded_entries _ _ Href Ht)
        as (male & female & unit & low & high & ->).
      rewrite !(not_tiered_eqb test) by (done || unfold tiered_tests; in_list).
      destruct v as [x | s]; cbn [is_number].
      * destruct (sex_bounded _ _ _ _ _ !! sex) as [[lo hi | | t] |];
          cbn; unfold py_getitem; cbn.
        -- intros H. repeat case_match; simplify_eq/=;
             (split; [reflexivity | in_list]).
        -- done.
        -- destruct t as [| c1 [| c2 [| c3 t]]]; done.
        -- intros [= <-]. split; [reflexivity | in_list].
      * intros [= <-]. split; [reflexivity | in_list].
    + intros [= <-]. split; [reflexivity | in_list].
Qed.

Lemma entry_value_and_status_witness :
  (value_of (Entry (VNum 171) "very_abnormal_high"
               (FText "Elevated LDL - increased cardiovascular risk"))
   = VNum 171 ∧
   "very_abnormal_high" ∈ statuses) ∧
  (value_of (Entry (VStr "Sinus") "no_reference" (FText "")) = VStr "Sinus" ∧
   "no_reference" ∈ statuses).
Proof.
  split.
  - exact (entry_value_and_status "female" "LDL" (VNum 171) _ eq_refl).
  - exact (entry_value_and_status "male" "ECG_RHYTHM" (VStr "Sinus") _ eq_refl).
Defined.

(** For a male or female patient every entry with bounds per sex holds
    bounds for that sex, PSA of a female patient excepted. *)
Lemma table_has_bounds test ref_range sex :
  REFERENCE_RANGES !! test = Some ref_range →
  test ∉ tiered_tests →
  sex = "male" ∨ sex = "female" →
  ¬ (test = "PSA" ∧ sex = "female") →
  ∃ lo hi, ref_range !! sex = Some (FRange lo hi).
Proof.
  intros Hin%REFERENCE_RANGES_lookup Htier Hsex Hpsa.
  unfold REFERENCE_RANGES_items, tiered_tests in *.
  repeat match goal with
    | H : _ ∈ _ :: _ |- _ => apply elem_of_cons in H as [[= -> ->] | H]
    | H : _ ∈ [] |- _ => by apply elem_of_nil in H
    end;
    first [ exfalso; apply Htier; by in_list
          | destruct Hsex as [-> | ->];
            first [ by eexists _, _ | exfalso; by apply Hpsa ] ].
Qed.

(** The two ways in which classifying one observation of a male or
    female patient raises: a text value of a tiered test, and a numeric
    PSA of a female patient. *)
Definition raising (sex test : string) (v : value) : Prop :=
  (test ∈ tiered_tests ∧ is_number v = false) ∨
  (test = "PSA" ∧ sex = "female" ∧ is_number v = true).

#[local] Instance raising_dec sex test v : Decision (raising sex test v).
Proof. unfold raising. apply _. Defined.

Lemma raising_entry sex test v :
  sex = "male" ∨ sex = "female" →
  (raising sex test v → categorize_entry sex test v = Raise TypeError) ∧
  (¬ raising sex test v → ∃ e, categorize_entry sex test v = Ok e).
Proof.
  intros Hsex. unfold raising. split.
  - intros [[Ht Hv] | (-> & -> & Hv)]; destruct v as [x | s]; try done.
    by apply tiered_text_raises.
  - intros Hok. destruct (decide (test ∈ tiered_tests)) as [Ht | Ht].
    + destruct v as [x | s]; [| exfalso; apply Hok; by left].
      apply tiered_cases in Ht as [-> | [-> | [-> | ->]]];
        vm_compute; repeat case_match; by eexists.
    + unfold categorize_entry.
      destruct (REFERENCE_RANGES !! test) as [rr |] eqn:Href; [| by eexists].
      destruct v as [x | s].
      * destruct (table_has_bounds test rr sex Href Ht Hsex) as (lo & hi & Hb).
        { intros [-> ->]. apply Hok. by right. }
        destruct (sex_bounded_numeric sex test rr lo hi x Href Ht Hb)
          as (low & high & _ & _ & Heq).
        unfold categorize_entry in Heq. rewrite Href in Heq.
        rewrite Heq. by eexists.
      * rewrite !(not_tiered_eqb test) by (done || unfold tiered_tests; in_list).
        by eexists.
Qed.

Lemma classify_each_elem sex items es t v :
  classify_each sex items = Ok es →
  (t, v) ∈ items →
  ∃ e, (t, e) ∈ es ∧ categorize_entry sex t v = Ok e.
Proof.
  revert es. induction items as [| [t' v'] items IH]; intros es Hes Hin.
  - by apply elem_of_nil in Hin.
  - cbn in Hes.
    destruct (categorize_entry sex t' v') as [e' |] eqn:He'; [| done].
    destruct (classify_each sex items) as [es' |]; [| done].
    cbn in Hes. injection Hes as <-.
    apply elem_of_cons in Hin as [[= -> ->] | Hin].
    + exists e'. split; [left | done].
    + destruct (IH es' eq_refl Hin) as (e & He & Hc).
      exists e. split; [by right | done].
Qed.

Lemma classify_each_keys sex items es :
  classify_each sex items = Ok es → es.*1 = items.*1.
Proof.
  revert es. induction items as [| [t v] items IH]; intros es Hes.
  - by injection Hes as <-.
  - cbn in Hes. destruct (categorize_entry sex t v) as [e |]; [| done].
    destruct (classify_each sex items) as [es' |]; [| done].
    cbn in Hes. injection Hes as <-. cbn. by rewrite (IH es').
Qed.

Lemma classify_each_total sex items :
  sex = "male" ∨ sex = "female" →
  (Forall (λ tv, ¬ raising sex tv.1 tv.2) items →
   ∃ es, classify_each sex items = Ok es) ∧
  (Exists (λ tv, raising sex tv.1 tv.2) items →
   classify_each sex items = Raise TypeError).
Proof.
  intros Hsex. induction items as [| [t v] items [IHok IHbad]].
  - split; [by eexists | by intros ?%Exists_nil].
  - destruct (raising_entry sex t v Hsex) as [Hraise Hfine]. split.
    + intros [Hv Hall]%Forall_cons. cbn in Hv.
      destruct (Hfine Hv) as (e & He), (IHok Hall) as (es & Hes).
      cbn. rewrite He. cbn. rewrite Hes. by eexists.
    + intros Hex. cbn [classify_each].
      destruct (decide (raising sex t v)) as [Hv | Hv].
      * by rewrite (Hraise Hv).
      * destruct (Hfine Hv) as (e & ->). cbn.
        apply Exists_cons in Hex as [Hv' | Hex]; [done |].
        by rewrite (IHbad Hex).
Qed.

(** A decidable closed proposition, by evaluation. *)
Local Ltac by_compute := apply (bool_decide_unpack _); vm_compute; exact I.

(** X3. For a male or female patient (the sex lowercased, "MALE" when
    absent) [categorize_results] raises in exactly two situations, both
    with [TypeError]: some tiered test (LDL, HBA1C, VITAMIN_D3,
    VITAMIN_B12) has a text value, or the patient is female and PSA has
    a numeric value.  In every other case it returns. *)
Theorem categorize_results_raises_exactly
    (test_results : list (string * value)) (patient_info : gmap string string) :
  let sex := lower (default "MALE" (patient_info !! "sex")) in
  NoDup test_results.*1 →
  sex = "male" ∨ sex = "female" →
  (Forall (λ tv, ¬ raising sex tv.1 tv.2) test_results →
   ∃ cr, categorize_results test_results patient_info = Ok cr) ∧
  (Exists (λ tv, raising sex tv.1 tv.2) test_results →
   categorize_results test_results patient_info = Raise TypeError).
Proof.
  intros sex Hnd Hsex. rewrite categorize_results_each by done.
  apply (classify_each_total sex test_results Hsex).
Qed.

Lemma categorize_results_raises_exactly_witness :
  (∃ cr, categorize_results
           [("HAEMOGLOBIN", VNum 14.0); ("ECG_RHYTHM", VStr "Sinus");
            ("PSA", VStr "n/a")]
           {[ "sex" := "Female" ]} = Ok cr) ∧
  categorize_results [("HAEMOGLOBIN", VNum 14.0); ("HBA1C", VStr "5.6.")] ∅
  = Raise TypeError.
Proof.
  split.
  - apply (categorize_results_raises_exactly
             [("HAEMOGLOBIN", VNum 14.0); ("ECG_RHYTHM", VStr "Sinus");
              ("PSA", VStr "n/a")] {[ "sex" := "Female" ]}).
    + by_compute.
    + by right.
    + by_compute.
  - apply (categorize_results_raises_exactly
             [("HAEMOGLOBIN", VNum 14.0); ("HBA1C", VStr "5.6.")] ∅).
    + by_compute.
    + by left.
    + by_compute.
Defined.

(** X4. When [categorize_results] returns, the result has the keys of
    [test_results] in the same order, and under each key the entry of
    that observation, holding its value unchanged. *)
Theorem one_entry_per_observation
    (test_results : list (string * value)) (patient_info : gmap string string)
    (cr : list (string * entry)) :
  let sex := lower (default "MALE" (patient_info !! "sex")) in
  NoDup test_results.*1 →
  categorize_results test_results patient_info = Ok cr →
  cr.*1 = test_results.*1 ∧
  ∀ test v, (test, v) ∈ test_results →
    ∃ e, dict_get test cr = Some e ∧
         categorize_entry sex test v = Ok e ∧
         value_of e = v.
Proof.
  intros sex Hnd. rewrite categorize_results_each by done. intros Hcr.
  pose proof (classify_each_keys _ _ _ Hcr) as Hkeys.
  split; [done |]. intros test v Hin.
  destruct (classify_each_elem _ _ _ _ _ Hcr Hin) as (e & He & Hc).
  exists e. split; [| split; [done |]].
  - rewrite dict_get_list_to_map. apply elem_of_list_to_map_1; [| done].
    by rewrite Hkeys.
  - by destruct (entry_value_and_status _ _ _ _ Hc).
Qed.

Lemma one_entry_per_observation_witness :
  let cr := [("WBC", Entry (VNum 12000) "abnormal_high"
                       (FText "Leukocytosis - infection or inflammation possible"));
             ("ECG_RATE", Entry (VNum 72) "no_reference" (FText ""))] in
  cr.*1 = ["WBC"; "ECG_RATE"] ∧
  ∀ test v, (test, v) ∈ [("WBC", VNum 12000); ("ECG_RATE", VNum 72)] →
    ∃ e, dict_get test cr = Some e ∧
         categorize_entry "male" test v = Ok e ∧
         value_of e = v.
Proof.
  intros cr.
  refine (one_entry_per_observation
            [("WBC", VNum 12000); ("ECG_RATE", VNum 72)] {[ "sex" := "male" ]} cr
            _ _).
  - by_compute.
  - reflexivity.
Defined.

(** ** The summary as a table of rules *)

(** The texts of the rules whose condition holds, in the order of the
    table. *)
Definition fired (rules : list (bool * string)) : list string :=
  (List.filter fst rules).*2.

Lemma fired_app rules1 rules2 :
  fired (rules1 ++ rules2) = (fired rules1 ++ fired rules2)%list.
Proof. unfold fired. by rewrite List.filter_app, fmap_app. Qed.

Section rules.
Variable cr : list (string * entry).
Variable pi : gmap string string.

(** MCV is present and neither abnormal_low nor abnormal_high. *)
Definition mcv_unremarkable : bool :=
  match dict_get "MCV" cr with
  | Some mcv =>
      negb (String.eqb (status mcv) "abnormal_low")
      && negb (String.eqb (status mcv) "abnormal_high")
  | None => false
  end.

Definition dyslipidemia : bool :=
  status_is cr "CHOLESTEROL_TOTAL" "abnormal_high"
  || status_is cr "LDL" "abnormal_high"
  || status_is cr "LDL" "very_abnormal_high"
  || status_is cr "HDL" "abnormal_low"
  || status_is cr "TRIGLYCERIDES" "abnormal_high".

Definition is_male : bool :=
  String.eqb (upper (default "" (pi !! "sex"))) "MALE".

(** One list of rules per inference block: a condition on the classified
    observations and the risk factor it stands for. *)
Definition risk_rules : list (list (bool * string)) :=
  let low_hb := status_is cr "HAEMOGLOBIN" "abnormal_low" in
  [ [ (low_hb && status_is cr "MCV" "abnormal_low",
       "Microcytic anemia possible - consider iron deficiency");
      (low_hb && status_is cr "MCV" "abnormal_high",
       "Macrocytic anemia possible - consider B12/folate deficiency");
      (low_hb && mcv_unremarkable, "Normocytic anemia possible") ];
    [ (status_is cr "WBC" "abnormal_high",
       "Elevated white blood cell count - possible infection or inflammation") ];
    [ (dyslipidemia, "Dyslipidemia - increased cardiovascular risk") ];
    [ (status_is cr "HBA1C" "borderline", "Prediabetes");
      (status_is cr "HBA1C" "abnormal_high", "Diabetes mellitus") ];
    [ (is_male && status_is cr "PSA" "abnormal_high",
       "Elevated PSA - prostate abnormality possible") ];
    [ (status_is cr "VITAMIN_D3" "abnormal_low", "Severe Vitamin D deficiency");
      (status_is cr "VITAMIN_D3" "borderline_low", "Vitamin D insufficiency") ];
    [ (status_is cr "VITAMIN_B12" "abnormal_low", "Vitamin B12 deficiency") ];
    [ (status_is cr "CREATININE" "abnormal_high",
       "Elevated creatinine - possible kidney dysfunction") ];
    [ (status_is cr "SGPT" "abnormal_high"
       || status_is cr "ALKALINE_PHOSPHATE" "abnormal_high",
       "Possible liver function abnormalities") ];
    [ (status_is cr "TSH" "abnormal_high", "Elevated TSH - possible hypothyroidism");
      (status_is cr "TSH" "abnormal_low", "Low TSH - possible hyperthyroidism") ] ].

(** The same for the recommendations. *)
Definition recommendation_rules : list (list (bool * string)) :=
  let low_hb := status_is cr "HAEMOGLOBIN" "abnormal_low" in
  let lifestyle :=
    "Lifestyle modifications recommended; consider dietary changes and exercise" in
  [ [ (low_hb && status_is cr "MCV" "abnormal_low",
       "Further investigation for iron deficiency anemia recommended");
      (low_hb && status_is cr "MCV" "abnormal_high",
       "Further investigation for vitamin B12 or folate deficiency recommended") ];
    [ (status_is cr "WBC" "abnormal_high",
       "Monitor for signs of infection or inflammatory conditions") ];
    [ (dyslipidemia, lifestyle);
      (status_is cr "LDL" "very_abnormal_high",
       "Consider consultation with cardiologist for lipid management") ];
    [ (status_is cr "HBA1C" "borderline", lifestyle);
      (status_is cr "HBA1C" "borderline", "Follow-up HbA1c test in 3-6 months");
      (status_is cr "HBA1C" "abnormal_high",
       "Consultation with endocrinologist recommended");
      (status_is cr "HBA1C" "abnormal_high", "Regular blood glucose monitoring") ];
    [ (is_male && status_is cr "PSA" "abnormal_high",
       "Urologist consultation recommended") ];
    [ (status_is cr "VITAMIN_D3" "abnormal_low",
       "Vitamin D supplementation recommended");
      (status_is cr "VITAMIN_D3" "borderline_low",
       "Consider Vitamin D supplementation") ];
    [ (status_is cr "VITAMIN_B12" "abnormal_low",
       "Vitamin B12 supplementation recommended") ];
    [ (status_is cr "CREATININE" "abnormal_high",
       "Follow-up kidney function tests recommended") ];
    [ (status_is cr "SGPT" "abnormal_high"
       || status_is cr "ALKALINE_PHOSPHATE" "abnormal_high",
       "Follow-up liver function tests recommended") ];
    [ (status_is cr "TSH" "abnormal_high", "Consider thyroid profile (T3, T4)");
      (status_is cr "TSH" "abnormal_low", "Consider thyroid profile (T3, T4)") ] ].

End rules.

Lemma status_is_Some cr t st e :
  dict_get t cr = Some e → status_is cr t st = String.eqb (status e) st.
Proof. unfold status_is. by intros ->. Qed.

Lemma status_is_None cr t st :
  dict_get t cr = None → status_is cr t st = false.
Proof. unfold status_is. by intros ->. Qed.

Local Ltac rule_block :=
  unfold block_risks, block_recs, fired, check_anemia, check_infection,
    check_lipids, check_diabetes, check_prostate, check_vitamin_d,
    check_vitamin_b12, check_kidney, check_liver, check_thyroid,
    has_lipid_concerns, liver_concerns, dyslipidemia, mcv_unremarkable,
    is_male;
  repeat match goal with
    | |- context [dict_get ?k ?c] =>
        let E := fresh "E" in
        destruct (dict_get k c) eqn:E;
        rewrite ?(status_is_Some _ _ _ _ E), ?(status_is_None _ _ _ E)
    end;
  repeat match goal with
    | |- context [status_is ?c ?t ?s] => destruct (status_is c t s)
    | |- context [String.eqb ?a ?b] =>
        let E := fresh "E" in destruct (String.eqb_spec a b) as [E | E]
    end;
  try reflexivity; try congruence.

(** Block by block, what [create_summary] appends is what the rules of
    the block give. *)
Lemma blocks_follow_rules cr pi :
  Forall2 (λ b rules, block_risks b = fired rules)
    (inference_blocks cr pi) (risk_rules cr pi) ∧
  Forall2 (λ b rules, block_recs b = fired rules)
    (inference_blocks cr pi) (recommendation_rules cr pi).
Proof.
  split; unfold inference_blocks, risk_rules, recommendation_rules;
    repeat (constructor; [rule_block |]); constructor.
Qed.

Lemma concat_fired (bs : list (summary → summary)) f rules :
  Forall2 (λ b r, f b = fired r) bs rules →
  concat (f <$> bs) = fired (concat rules).
Proof.
  induction 1 as [| b r bs rules Hb _ IH]; [done |].
  rewrite fmap_cons. cbn [concat]. by rewrite fired_app, Hb, IH.
Qed.

Lemma all_risks_fired cr pi :
  all_risks cr pi = fired (concat (risk_rules cr pi)) ∧
  all_recs cr pi = fired (concat (recommendation_rules cr pi)).
Proof.
  destruct (blocks_follow_rules cr pi) as [Hr Hc].
  split; by apply concat_fired.
Qed.


(** ** The shape of a summary *)

Lemma fired_sublist rules : sublist (fired rules) rules.*2.
Proof.
  unfold fired. induction rules as [| [[] t] rules IH]; cbn;
    [constructor | by constructor | by constructor].
Qed.

Lemma concat_length_le {A} (f : A → list string) (xs : list A) (ns : list nat) :
  Forall2 (λ x n, (length (f x) ≤ n)%nat) xs ns →
  (length (concat (f <$> xs)) ≤ sum_list ns)%nat.
Proof.
  induction 1 as [| x n xs ns Hx _ IH]; [done |].
  rewrite fmap_cons. cbn [concat sum_list sum_list_with].
  rewrite length_app. apply Nat.add_le_mono; [exact Hx | exact IH].
Qed.

Local Ltac block_size :=
  unfold block_risks, block_recs, check_anemia, check_infection,
    check_lipids, check_diabetes, check_prostate, check_vitamin_d,
    check_vitamin_b12, check_kidney, check_liver, check_thyroid;
  repeat case_match; cbn; lia.

(** A block appends at most one risk factor; the dyslipidemia and the
    diabetes block append up to two recommendations, the others one. *)
Lemma block_sizes cr pi :
  Forall2 (λ b n, (length (block_risks b) ≤ n)%nat)
    (inference_blocks cr pi) [1; 1; 1; 1; 1; 1; 1; 1; 1; 1] ∧
  Forall2 (λ b n, (length (block_recs b) ≤ n)%nat)
    (inference_blocks cr pi) [1; 1; 2; 2; 1; 1; 1; 1; 1; 1].
Proof.
  split; unfold inference_blocks;
    repeat (constructor; [block_size |]); constructor.
Qed.

(** X6. Every summary has between one and ten risk factors, none of them
    twice, and at most twelve recommendations.  The sentinel risk factor
    never stands beside another one: when it is present the two lists
    are the sentinel pair.  [abnormal_count] is at most the number of
    observations, and [patient_info] is passed through. *)
Theorem summary_shape (cr : list (string * entry)) (pi : gmap string string) :
  let s := create_summary cr pi in
  NoDup (risk_factors s) ∧
  (1 ≤ length (risk_factors s) ≤ 10)%nat ∧
  (length (recommendations s) ≤ 12)%nat ∧
  ("No significant risk factors identified" ∈ risk_factors s →
   risk_factors s = ["No significant risk factors identified"] ∧
   recommendations s
   = ["Routine follow-up as per age and gender appropriate guidelines"]) ∧
  (abnormal_count s ≤ length cr)%nat ∧
  patient_info_of s = pi.
Proof.
  intros s. unfold s. rewrite create_summary_lists.
  cbn [risk_factors recommendations abnormal_count patient_info_of].
  destruct (block_sizes cr pi) as [Hr Hc].
  apply (concat_length_le block_risks) in Hr.
  apply (concat_length_le block_recs) in Hc.
  fold (all_risks cr pi) in Hr. fold (all_recs cr pi) in Hc.
  cbn [sum_list sum_list_with] in Hr, Hc. unfold id in Hr, Hc.
  destruct (all_risks_fired cr pi) as [Hfr _].
  pose proof (fired_sublist (concat (risk_rules cr pi))) as Hsub.
  rewrite <- Hfr in Hsub.
  split; [| split; [| split; [| split; [| split]]]].
  - destruct (all_risks cr pi) eqn:E; [apply NoDup_singleton |].
    refine (sublist_NoDup _ _ _ Hsub). by_compute.
  - destruct (all_risks cr pi); cbn in *; lia.
  - destruct (all_risks cr pi) eqn:E; [| lia].
    rewrite (all_recs_nil _ _ E). cbn. lia.
  - destruct (all_risks cr pi) eqn:E.
    + by rewrite (all_recs_nil _ _ E).
    + intros Hin. exfalso. apply (elem_of_sublist _ _ _ Hin) in Hsub.
      revert Hsub. by_compute.
  - apply sublist_length, dict_filter_sublist.
  - reflexivity.
Qed.

Lemma summary_shape_witness :
  let s := create_summary
             [("RBC", Entry (VNum 3.1) "abnormal_low" (FText "Low RBC count"))]
             ∅ in
  abnormal_count s = 1 ∧
  risk_factors s = ["No significant risk factors identified"] ∧
  recommendations s
  = ["Routine follow-up as per age and gender appropriate guidelines"].
Proof.
  intros s. split; [reflexivity |].
  refine (proj1 (proj2 (proj2 (proj2 (summary_shape _ ∅)))) _).
  apply list_elem_of_here.
Defined.

(** The fifteen tests the inference blocks read. *)
Definition watched_tests : list string :=
  ["HAEMOGLOBIN"; "MCV"; "WBC"; "CHOLESTEROL_TOTAL"; "LDL"; "HDL";
   "TRIGLYCERIDES"; "HBA1C"; "PSA"; "VITAMIN_D3"; "VITAMIN_B12"; "CREATININE";
   "SGPT"; "ALKALINE_PHOSPHATE"; "TSH"].

Lemma dict_get_None {A} (d : list (string * A)) (k : string) :
  dict_get k d = None → k ∉ d.*1.
Proof.
  rewrite dict_get_list_to_map. apply not_elem_of_list_to_map_2.
Qed.

Lemma dict_get_app_ne {A} (d : list (string * A)) (k k' : string) (a : A) :
  k ≠ k' → dict_get k (d ++ [(k', a)]) = dict_get k d.
Proof.
  intros Hne. induction d as [| [k0 a0] d IH]; cbn.
  - destruct (String.eqb_spec k' k); [congruence | done].
  - by rewrite IH.
Qed.

Lemma summary_watched cr cr' pi :
  (∀ k, k ∈ watched_tests → dict_get k cr' = dict_get k cr) →
  risk_factors (create_summary cr' pi) = risk_factors (create_summary cr pi) ∧
  recommendations (create_summary cr' pi)
  = recommendations (create_summary cr pi).
Proof.
  intros H.
  assert (all_risks cr' pi = all_risks cr pi ∧ all_recs cr' pi = all_recs cr pi)
    as [Hr Hc].
  { unfold all_risks, all_recs, inference_blocks, block_risks, block_recs,
      check_anemia, check_infection, check_lipids, check_diabetes,
      check_prostate, check_vitamin_d, check_vitamin_b12, check_kidney,
      check_liver, check_thyroid, has_lipid_concerns, liver_concerns, status_is.
    repeat match goal with
      | |- context [dict_get ?k cr'] =>
          rewrite (H k) by (unfold watched_tests; in_list)
      end.
    done. }
  rewrite !create_summary_lists. cbn [risk_factors recommendations].
  by rewrite Hr, Hc.
Qed.

(** X7. The risk factors and the recommendations depend on the
    classified observations through the fifteen watched tests only: two
    dicts that agree on them give the same two lists, whatever else they
    hold.  Storing an observation of any other test (RBC, PLATELETS, an
    ECG finding, ...) leaves both lists as they were, and raises
    [abnormal_count] by one exactly when its status contains "abnormal"
    or "borderline". *)
Theorem summary_reads_watched_tests (cr : list (string * entry))
    (pi : gmap string string) :
  (∀ cr', (∀ k, k ∈ watched_tests → dict_get k cr' = dict_get k cr) →
     risk_factors (create_summary cr' pi) = risk_factors (create_summary cr pi) ∧
     recommendations (create_summary cr' pi)
     = recommendations (create_summary cr pi)) ∧
  (∀ test e,
     test ∉ watched_tests → dict_get test cr = None →
     let s := create_summary cr pi in
     let s' := create_summary (dict_set test e cr) pi in
     risk_factors s' = risk_factors s ∧
     recommendations s' = recommendations s ∧
     abnormal_count s'
     = if is_flagged e then S (abnormal_count s) else abnormal_count s).
Proof.
  split; [intros cr'; apply summary_watched |].
  intros test e Htest Hfresh s s'. subst s s'.
  rewrite (dict_set_fresh test e cr) by by apply dict_get_None.
  destruct (summary_watched cr (cr ++ [(test, e)]) pi) as [Hr Hc].
  { intros k Hk. apply dict_get_app_ne. by intros ->. }
  split; [done | split; [done |]].
  rewrite !create_summary_lists. cbn [abnormal_count].
  unfold dict_filter. rewrite List.filter_app, length_app. cbn.
  destruct (is_flagged e); cbn; lia.
Qed.

Lemma summary_reads_watched_tests_witness :
  let tsh := Entry (VNum 7.5) "abnormal_high"
               (FText "Elevated TSH - possible hypothyroidism") in
  let rbc := Entry (VNum 3.1) "abnormal_low" (FText "Low RBC count") in
  let plt := Entry (VNum 90000) "abnormal_low"
               (FText "Thrombocytopenia - bleeding risk") in
  let s := create_summary [("TSH", tsh)] ∅ in
  let s' := create_summary [("RBC", rbc); ("TSH", tsh); ("PLATELETS", plt)] ∅ in
  let s'' := create_summary (dict_set "RBC" rbc [("TSH", tsh)]) ∅ in
  (risk_factors s' = risk_factors s ∧ recommendations s' = recommendations s) ∧
  abnormal_count s' = 3 ∧
  (risk_factors s'' = risk_factors s ∧ recommendations s'' = recommendations s ∧
   abnormal_count s'' = 2).
Proof.
  intros tsh rbc plt s s' s''.
  pose proof (summary_reads_watched_tests [("TSH", tsh)] ∅) as [Hagree Hadd].
  split; [| split; [reflexivity |]].
  - apply Hagree. unfold watched_tests. intros k Hk.
    repeat (apply elem_of_cons in Hk as [-> | Hk]; [reflexivity |]).
    by apply elem_of_nil in Hk.
  - refine (Hadd "RBC" rbc _ eq_refl). by_compute.
Defined.

(** ** Who is male *)

Lemma upper_lower_ascii c : upper_ascii (lower_ascii c) = upper_ascii c.
Proof. by destruct c as [[] [] [] [] [] [] [] []]. Qed.

Lemma lower_upper_ascii c : lower_ascii (upper_ascii c) = lower_ascii c.
Proof. by destruct c as [[] [] [] [] [] [] [] []]. Qed.

Lemma upper_lower s : upper (lower s) = upper s.
Proof.
  unfold upper, lower. induction s as [| c s IH]; [done |].
  cbn. by rewrite upper_lower_ascii, IH.
Qed.

Lemma lower_upper s : lower (upper s) = lower s.
Proof.
  unfold upper, lower. induction s as [| c s IH]; [done |].
  cbn. by rewrite lower_upper_ascii, IH.
Qed.

Lemma sex_bounded_lookup male female unit low high sex :
  sex_bounded male female unit low high !! sex
  = if decide ("male" = sex) then Some male
    else if decide ("female" = sex) then Some female
    else if decide ("unit" = sex) then Some (FText unit)
    else if decide ("low_concern" = sex) then Some (FText low)
    else if decide ("high_concern" = sex) then Some (FText high)
    else None.
Proof.
  unfold sex_bounded. rewrite !lookup_insert, lookup_singleton.
  by repeat case_decide.
Qed.

Lemma classify_each_lookup sex items es t e :
  classify_each sex items = Ok es →
  (t, e) ∈ es →
  ∃ v, (t, v) ∈ items ∧ categorize_entry sex t v = Ok e.
Proof.
  revert es. induction items as [| [t' v'] items IH]; intros es Hes Hin.
  - injection Hes as <-. by apply elem_of_nil in Hin.
  - cbn in Hes.
    destruct (categorize_entry sex t' v') as [e' |] eqn:He'; [| done].
    destruct (classify_each sex items) as [es' |]; [| done].
    cbn in Hes. injection Hes as <-.
    apply elem_of_cons in Hin as [[= -> ->] | Hin].
    + exists v'. split; [left | done].
    + destruct (IH es' eq_refl Hin) as (v & Hv & Hc).
      exists v. split; [by right | done].
Qed.

(** PSA is stored as abnormal_high for a male patient with a value above
    4.0, and for nobody else. *)
Lemma psa_abnormal_high sex v e :
  categorize_entry sex "PSA" v = Ok e →
  status e = "abnormal_high" →
  sex = "male" ∧ ∃ x, v = VNum x ∧ (4.0 <? x)%float = true.
Proof.
  unfold categorize_entry.
  change (REFERENCE_RANGES !! "PSA")
    with (Some (sex_bounded (FRange 0 4.0) FNone "ng/ml" ""
                  "Elevated PSA - prostate abnormality possible, including cancer")).
  cbn [String.eqb Ascii.eqb Bool.eqb].
  destruct v as [x | s]; cbn [is_number]; [| by intros [= <-]].
  rewrite sex_bounded_lookup.
  repeat case_decide; subst; cbn; try done.
  - destruct (x <? 0)%float; cbn; [by intros [= <-] |].
    destruct (4.0 <? x)%float eqn:E; cbn; [| by intros [= <-]].
    intros _ _. split; [done |]. by exists x.
  - by intros [= <-].
Qed.

Lemma psa_above (x : float) :
  (4.0 <? x)%float = true →
  categorize_entry "male" "PSA" (VNum x)
  = Ok (Entry (VNum x) "abnormal_high"
          (FText "Elevated PSA - prostate abnormality possible, including cancer")).
Proof.
  intros Hx.
  assert ((0 <=? 4.0)%float = true) as H04 by reflexivity.
  pose proof (far_above_not_ltb 0 4.0 x H04 Hx) as Hlow.
  vm_compute. vm_compute in Hx, Hlow. by rewrite Hlow, Hx.
Qed.

Lemma elem_of_concat_fmap {A B} (f : A → list B) (xs : list A) x y :
  x ∈ xs → y ∈ f x → y ∈ concat (f <$> xs).
Proof.
  intros Hx Hy. induction xs as [| x' xs IH]; [by apply elem_of_nil in Hx |].
  rewrite fmap_cons. cbn [concat]. apply elem_of_app.
  apply elem_of_cons in Hx as [<- | Hx]; [by left | right; by apply IH].
Qed.

Lemma risk_reported cr pi r :
  r ∈ all_risks cr pi → r ∈ risk_factors (create_summary cr pi).
Proof.
  rewrite create_summary_lists. cbn [risk_factors].
  destruct (all_risks cr pi); [by intros ?%elem_of_nil | done].
Qed.

Lemma rec_reported cr pi r :
  r ∈ all_recs cr pi → r ∈ recommendations (create_summary cr pi).
Proof.
  rewrite create_summary_lists. cbn [recommendations].
  destruct (all_risks cr pi); [| done].
  intros H. apply elem_of_app. by left.
Qed.

(** The prostate block of a patient whose sex uppercases to "MALE", on a
    PSA stored as abnormal_high: what it appends is in the summary. *)
Lemma prostate_reported cr pi sex :
  pi !! "sex" = Some sex →
  upper sex = "MALE" →
  status_is cr "PSA" "abnormal_high" = true →
  "Elevated PSA - prostate abnormality possible"
    ∈ risk_factors (create_summary cr pi) ∧
  "Urologist consultation recommended"
    ∈ recommendations (create_summary cr pi).
Proof.
  intros Hsex Hupper Hpsa.
  assert (check_prostate cr pi ∈ inference_blocks cr pi) as Hin
    by (unfold inference_blocks; in_list).
  split.
  - apply risk_reported, (elem_of_concat_fmap _ _ _ _ Hin).
    unfold block_risks.
    rewrite (check_prostate_male cr pi sex _ Hsex Hupper Hpsa). left.
  - apply rec_reported, (elem_of_concat_fmap _ _ _ _ Hin).
    unfold block_recs.
    rewrite (check_prostate_male cr pi sex _ Hsex Hupper Hpsa). left.
Qed.

Lemma dict_get_classified sex items es t e :
  NoDup items.*1 →
  classify_each sex items = Ok es →
  (dict_get t es = Some e ↔
   ∃ v, dict_get t items = Some v ∧ categorize_entry sex t v = Ok e).
Proof.
  intros Hnd Hes.
  pose proof (classify_each_keys _ _ _ Hes) as Hkeys.
  assert (NoDup es.*1) as Hnd' by by rewrite Hkeys.
  rewrite !dict_get_list_to_map. split.
  - intros Hin%elem_of_list_to_map_2.
    destruct (classify_each_lookup _ _ _ _ _ Hes Hin) as (v & Hv & Hc).
    exists v. split; [| done]. by apply elem_of_list_to_map_1.
  - intros (v & Hv%elem_of_list_to_map_2 & Hc).
    destruct (classify_each_elem _ _ _ _ _ Hes Hv) as (e' & Hin & Hc').
    apply elem_of_list_to_map_1; [done |]. congruence.
Qed.

(** Which observations end up with PSA stored as abnormal_high. *)
Lemma psa_status test_results patient_info cr :
  NoDup test_results.*1 →
  categorize_results test_results patient_info = Ok cr →
  status_is cr "PSA" "abnormal_high" = true ↔
  lower (default "MALE" (patient_info !! "sex")) = "male" ∧
  ∃ x, dict_get "PSA" test_results = Some (VNum x) ∧ (4.0 <? x)%float = true.
Proof.
  intros Hnd. rewrite categorize_results_each by done.
  set (sex := lower _). intros Hcr.
  unfold status_is. split.
  - destruct (dict_get "PSA" cr) as [e |] eqn:He; [| done].
    intros Hst%String.eqb_eq.
    destruct (dict_get_classified sex _ _ "PSA" e Hnd Hcr) as [H _].
    destruct (H He) as (v & Hv & Hc).
    destruct (psa_abnormal_high _ _ _ Hc Hst) as (Hsex & x & -> & Hx).
    split; [done |]. by exists x.
  - intros (Hsex & x & Hx & Hgt).
    destruct (dict_get_classified sex _ _ "PSA"
                (Entry (VNum x) "abnormal_high"
                   (FText "Elevated PSA - prostate abnormality possible, including cancer"))
                Hnd Hcr) as [_ H].
    rewrite H; [done |]. exists (VNum x). split; [done |].
    rewrite Hsex. by apply psa_above.
Qed.

Lemma elem_of_fired rules r :
  r ∈ fired rules ↔ (true, r) ∈ rules.
Proof.
  unfold fired. rewrite list_elem_of_fmap. split.
  - intros ([b r'] & -> & Hin). rewrite list_elem_of_In, filter_In in Hin.
    destruct Hin as [Hin Hb]. cbn in Hb. subst b. by apply list_elem_of_In.
  - intros Hin. exists (true, r). split; [done |].
    rewrite list_elem_of_In, filter_In. split; [by apply list_elem_of_In | done].
Qed.

(** Only the prostate block appends the two texts of the prostate block. *)
Lemma prostate_reported_inv cr pi :
  ("Elevated PSA - prostate abnormality possible"
     ∈ risk_factors (create_summary cr pi) ∨
   "Urologist consultation recommended"
     ∈ recommendations (create_summary cr pi)) →
  is_male pi && status_is cr "PSA" "abnormal_high" = true.
Proof.
  rewrite create_summary_lists. cbn [risk_factors recommendations].
  destruct (all_risks_fired cr pi) as [Hr Hc].
  assert ("Elevated PSA - prostate abnormality possible" ∈ all_risks cr pi ∨
          "Urologist consultation recommended" ∈ all_recs cr pi →
          is_male pi && status_is cr "PSA" "abnormal_high" = true) as Hall.
  { rewrite Hr, Hc, !elem_of_fired.
    unfold risk_rules, recommendation_rules. cbn [concat app].
    intros [H | H];
      repeat (apply elem_of_cons in H as [H | H]; [by injection H |]);
      by apply elem_of_nil in H. }
  destruct (all_risks cr pi) as [| r rs] eqn:E.
  - rewrite (all_recs_nil _ _ E) in *.
    intros [H | H]; cbn in H;
      repeat (apply elem_of_cons in H as [H | H]; [done |]);
      by apply elem_of_nil in H.
  - done.
Qed.

(** ** The sex under which a report is analysed *)

Lemma use_user_input_sex patient_sex patient_age patient_info :
  use_user_input patient_sex patient_age patient_info !! "sex"
  = match patient_info !! "sex" with
    | Some sex => Some sex
    | None => if String.eqb patient_sex "" then None else Some patient_sex
    end.
Proof.
  unfold use_user_input.
  destruct (patient_info !! "sex") as [sex |] eqn:Hsex.
  - repeat case_match; [done.. |]. by rewrite lookup_insert_ne.
  - destruct (String.eqb patient_sex "").
    + repeat case_match; [done.. |]. by rewrite lookup_insert_ne.
    + repeat case_match; rewrite ?(lookup_insert_ne _ "age") by done;
        by rewrite lookup_insert_eq.
Qed.

(** C2. When the text holds no sex and the user leaves the select box at
    its default, [main] analyses the report of a male patient throughout:
    [use_user_input] stores "Male", which is "male" to the functions that
    lowercase it ([categorize_results], [prepare_categorized_results],
    [create_visualizations]) and "MALE" to [create_summary].  PSA is then
    stored as abnormal_high exactly when its value is above 4.0, and
    whenever it is, the prostate block appends the elevated-PSA risk
    factor and the urologist recommendation, which the summary holds. *)
Theorem male_default_throughout (patient_info : gmap string string)
    (patient_age : N) (test_results : list (string * value)) :
  patient_info !! "sex" = None →
  NoDup test_results.*1 →
  let pi := use_user_input default_sex patient_age patient_info in
  (pi !! "sex" = Some "Male" ∧
   lower (default "MALE" (pi !! "sex")) = "male" ∧
   upper (default "" (pi !! "sex")) = "MALE") ∧
  ∀ cr s,
    main_summary default_sex patient_age patient_info test_results
    = Ok (Some (cr, s)) →
    (status_is cr "PSA" "abnormal_high" = true ↔
     ∃ x, dict_get "PSA" test_results = Some (VNum x) ∧ (4.0 <? x)%float = true) ∧
    (status_is cr "PSA" "abnormal_high" = true →
     (∀ s0, check_prostate cr pi s0
            = (s0 |> append_risk "Elevated PSA - prostate abnormality possible"
                  |> append_rec "Urologist consultation recommended")) ∧
     "Elevated PSA - prostate abnormality possible" ∈ risk_factors s ∧
     "Urologist consultation recommended" ∈ recommendations s).
Proof.
  intros Hnone Hnd pi.
  assert (pi !! "sex" = Some "Male") as Hsex.
  { unfold pi. by rewrite use_user_input_sex, Hnone. }
  split; [by rewrite Hsex |].
  intros cr s. unfold main_summary. fold pi.
  destruct test_results as [| tv test_results]; [done |].
  destruct (categorize_results _ pi) as [cr' |] eqn:Hcr; [| done].
  cbn. intros [= <- <-]. split.
  - rewrite (psa_status _ _ _ Hnd Hcr), Hsex. cbn [default from_option id].
    split; [by intros [_ ?] | by split].
  - intros Hpsa. split.
    + intros s0. by apply (check_prostate_male cr' pi "Male").
    + by apply (prostate_reported cr' pi "Male").
Qed.

Lemma male_default_throughout_witness :
  let pi := use_user_input default_sex 40 ∅ in
  ∃ cr s,
    main_summary default_sex 40 ∅ [("PSA", VNum 5.0); ("TSH", VNum 2.0)]
    = Ok (Some (cr, s)) ∧
    pi !! "sex" = Some "Male" ∧
    status_is cr "PSA" "abnormal_high" = true ∧
    "Elevated PSA - prostate abnormality possible" ∈ risk_factors s ∧
    "Urologist consultation recommended" ∈ recommendations s.
Proof.
  intros pi.
  destruct (male_default_throughout ∅ 40 [("PSA", VNum 5.0); ("TSH", VNum 2.0)])
    as [(Hsex & _ & _) Hrun].
  - reflexivity.
  - by_compute.
  - eexists _, _. split; [reflexivity |].
    destruct (Hrun _ _ eq_refl) as [Hiff Hrep].
    assert (status_is
              [("PSA", Entry (VNum 5.0) "abnormal_high"
                         (FText "Elevated PSA - prostate abnormality possible, including cancer"));
               ("TSH", Entry (VNum 2.0) "normal" (FText ""))]
              "PSA" "abnormal_high" = true) as Hpsa.
    { apply Hiff. by exists 5.0%float. }
    destruct (Hrep Hpsa) as (_ & Hrisk & Hrec).
    split; [exact Hsex | split; [exact Hpsa | split; [exact Hrisk | exact Hrec]]].
Defined.

(** ** A sex given in [patient_info] *)

(** X8. With a sex in [patient_info], in any spelling, the two
    functions agree on who is male.  When [categorize_results] has
    stored PSA as abnormal_high, the sex lowercases to "male" (the key
    under which it found the bounds) and uppercases to "MALE" (the test
    of [create_summary]); and the summary holds the elevated-PSA risk
    factor, and the urologist recommendation, exactly when PSA was
    stored as abnormal_high. *)
Theorem psa_high_reported (test_results : list (string * value))
    (patient_info : gmap string string) (sex : string)
    (cr : list (string * entry)) :
  patient_info !! "sex" = Some sex →
  NoDup test_results.*1 →
  categorize_results test_results patient_info = Ok cr →
  let s := create_summary cr patient_info in
  (status_is cr "PSA" "abnormal_high" = true →
   lower sex = "male" ∧ upper sex = "MALE") ∧
  (status_is cr "PSA" "abnormal_high" = true ↔
   "Elevated PSA - prostate abnormality possible" ∈ risk_factors s) ∧
  (status_is cr "PSA" "abnormal_high" = true ↔
   "Urologist consultation recommended" ∈ recommendations s).
Proof.
  intros Hsex Hnd Hcr s.
  assert (status_is cr "PSA" "abnormal_high" = true →
          lower sex = "male" ∧ upper sex = "MALE") as Hmale.
  { rewrite (psa_status _ _ _ Hnd Hcr), Hsex. cbn [default from_option id].
    intros [Hlow _]. split; [done |]. by rewrite <- upper_lower, Hlow. }
  split; [done |].
  split; (split; [intros Hpsa | intros Hin]).
  - destruct (Hmale Hpsa) as [_ Hup].
    by apply (prostate_reported cr patient_info sex).
  - assert (is_male patient_info && status_is cr "PSA" "abnormal_high" = true)
      as [_ ?]%andb_true_iff; [| done].
    apply prostate_reported_inv. by left.
  - destruct (Hmale Hpsa) as [_ Hup].
    by apply (prostate_reported cr patient_info sex).
  - assert (is_male patient_info && status_is cr "PSA" "abnormal_high" = true)
      as [_ ?]%andb_true_iff; [| done].
    apply prostate_reported_inv. by right.
Qed.

Lemma psa_high_reported_witness :
  let pi : gmap string string := {[ "sex" := "mAlE" ]} in
  let cr := [("PSA", Entry (VNum 5.0) "abnormal_high"
                       (FText "Elevated PSA - prostate abnormality possible, including cancer"))] in
  let s := create_summary cr pi in
  categorize_results [("PSA", VNum 5.0)] pi = Ok cr ∧
  (status_is cr "PSA" "abnormal_high" = true →
   lower "mAlE" = "male" ∧ upper "mAlE" = "MALE") ∧
  (status_is cr "PSA" "abnormal_high" = true ↔
   "Elevated PSA - prostate abnormality possible" ∈ risk_factors s) ∧
  (status_is cr "PSA" "abnormal_high" = true ↔
   "Urologist consultation recommended" ∈ recommendations s).
Proof.
  intros pi cr s. split; [reflexivity |].
  refine (psa_high_reported [("PSA", VNum 5.0)] pi "mAlE" cr _ _ _).
  - reflexivity.
  - by_compute.
  - reflexivity.
Defined.

(** * [create_visualizations] *)

(** Float division raises on a zero divisor, which [exn] does not list:
    the outcome of a call that computes. *)
Inductive outcome (A : Type) :=
| Return (a : A)
| Raises (e : exn)
| RaisesZeroDivision.
Arguments Return {A} a.
Arguments Raises {A} e.
Arguments RaisesZeroDivision {A}.

#[export] Instance outcome_ret : MRet outcome := λ A a, Return a.

#[export] Instance outcome_bind : MBind outcome := λ A B k r,
  match r with
  | Return a => k a
  | Raises e => Raises e
  | RaisesZeroDivision => RaisesZeroDivision
  end.

#[export] Instance outcome_fmap : FMap outcome := λ A B f r,
  match r with
  | Return a => Return (f a)
  | Raises e => Raises e
  | RaisesZeroDivision => RaisesZeroDivision
  end.

Definition lift {A} (r : result A) : outcome A :=
  match r with
  | Ok a => Return a
  | Raise e => Raises e
  end.

(** [a - b] and [a / b] on values: numbers only, and no zero divisor. *)
Definition py_sub (a b : value) : outcome float :=
  match a, b with
  | VNum x, VNum y => Return (x - y)%float
  | _, _ => Raises TypeError
  end.

Definition py_div (a b : value) : outcome float :=
  match a, b with
  | VNum x, VNum y =>
      if (y =? 0)%float then RaisesZeroDivision else Return (x / y)%float
  | _, _ => Raises TypeError
  end.

(** [max(0, min(100, x))]: [min] keeps 100 unless [x < 100], [max] keeps
    0 unless the result is above 0. *)
Definition clamp (x : float) : float :=
  let m := if (x <? 100)%float then x else 100%float in
  if (0 <? m)%float then m else 0%float.

(** [s.replace(old, new)] for one-character [old] and [new] *)
Definition replace_char (old new : ascii) (s : string) : string :=
  str_map (λ c, if Ascii.eqb c old then new else c) s.

Definition is_upper (c : ascii) : bool :=
  let n := nat_of_ascii c in (65 <=? n)%nat && (n <=? 90)%nat.

Definition is_lower (c : ascii) : bool :=
  let n := nat_of_ascii c in (97 <=? n)%nat && (n <=? 122)%nat.

(** [s.title()], on the ASCII letters: a letter that follows a letter is
    lowercased, any other letter is uppercased. *)
Fixpoint title_from (previous_is_cased : bool) (s : string) : string :=
  match s with
  | "" => ""
  | String c s' =>
      if is_lower c then
        String (if previous_is_cased then c else upper_ascii c) (title_from true s')
      else if is_upper c then
        String (if previous_is_cased then lower_ascii c else c) (title_from true s')
      else String c (title_from false s')
  end.

Definition title (s : string) : string := title_from false s.

(** [param.replace("_", " ").title()] *)
Definition display_name (param : string) : string :=
  title (replace_char "_" " " param).

Record hematology_row := HematologyRow {
  h_parameter : string;
  h_value : value;
  h_normalized : float;
  h_min : value;
  h_max : value;
  h_status : string
}.

Record lipid_row := LipidRow {
  l_parameter : string;
  l_value : value;
  l_min : value;
  l_max : value;
  l_status : string
}.

(** [visualizations]: a key is set only for a non-empty list. *)
Record visualizations := Visualizations {
  hematology : option (list hematology_row);
  lipid : option (list lipid_row)
}.

Definition non_empty {A} (data : list A) : option (list A) :=
  match data with
  | [] => None
  | _ :: _ => Some data
  end.

(** [((value - min_val) / (max_val - min_val)) * 100], clamped *)
Definition normalized (value min_val max_val : value) : outcome float :=
  num ← py_sub value min_val;
  den ← py_sub max_val min_val;
  q ← py_div (VNum num) (VNum den);
  mret (clamp (q * 100)%float).

Section visualizations.
Variable categorized_results : list (string * entry).
Variable patient_info : gmap string string.

(** The body of the loop over [hematology_params]. *)
Definition hematology_step (param : string) (hematology_data : list hematology_row)
  : outcome (list hematology_row) :=
  match dict_get param categorized_results with
  | Some result =>
      let sex := lower (default "MALE" (patient_info !! "sex")) in
      match REFERENCE_RANGES !! param ≫= (.!! sex) with
      | Some bounds =>
          '(min_val, max_val) ← lift (py_unpack2 bounds);
          let value := value_of result in
          norm_value ← normalized value min_val max_val;
          display_value ←
            (if String.eqb param "PLATELETS"
             then VNum <$> py_div value (VNum 1000)
             else mret value);
          mret (hematology_data ++
                [HematologyRow (display_name param) display_value norm_value
                   min_val max_val (status result)])%list
      | None => mret hematology_data
      end
  | None => mret hematology_data
  end.

(** The body of the loop over [lipid_params]. *)
Definition lipid_step (param : string) (lipid_data : list lipid_row)
  : outcome (list lipid_row) :=
  match dict_get param categorized_results with
  | Some result =>
      let value := value_of result in
      let sex := lower (default "MALE" (patient_info !! "sex")) in
      bounds ←
        (if String.eqb param "LDL" then
           ref_range ← lift (py_getitem REFERENCE_RANGES param);
           Some <$> lift (py_getitem ref_range "normal")
         else if String.eqb param "HDL" then
           ref_range ← lift (py_getitem REFERENCE_RANGES param);
           Some <$> lift (py_getitem ref_range sex)
         else mret (REFERENCE_RANGES !! param ≫= (.!! sex)));
      match bounds with
      | Some bounds =>
          '(min_val, max_val) ← lift (py_unpack2 bounds);
          mret (lipid_data ++
                [LipidRow (display_name param) value min_val max_val
                   (status result)])%list
      | None => mret lipid_data
      end
  | None => mret lipid_data
  end.

(** [for param in params: ...], threading the list that is appended to *)
Fixpoint for_each {A} (step : string → list A → outcome (list A))
    (params : list string) (data : list A) : outcome (list A) :=
  match params with
  | [] => mret data
  | param :: params' => data' ← step param data; for_each step params' data'
  end.

Definition create_visualizations : outcome visualizations :=
  hematology_data ←
    for_each hematology_step ["HAEMOGLOBIN"; "RBC"; "WBC"; "PLATELETS"] [];
  lipid_data ←
    for_each lipid_step ["CHOLESTEROL_TOTAL"; "TRIGLYCERIDES"; "HDL"; "LDL"] [];
  mret (Visualizations (non_empty hematology_data) (non_empty lipid_data)).

End visualizations.

(** ** The normalized value *)

Lemma clamp_bounds x :
  (0 <=? clamp x)%float = true ∧ (clamp x <=? 100)%float = true.
Proof.
  unfold clamp. destruct (x <? 100)%float eqn:E1.
  - destruct (0 <? x)%float eqn:E2; [| done].
    split; by apply ltb_leb.
  - done.
Qed.

Definition hematology_params : list string :=
  ["HAEMOGLOBIN"; "RBC"; "WBC"; "PLATELETS"].

Definition lipid_params : list string :=
  ["CHOLESTEROL_TOTAL"; "TRIGLYCERIDES"; "HDL"; "LDL"].

(** The entries of the four hematology parameters. *)
Lemma hematology_entries param :
  param ∈ hematology_params →
  ∃ lo hi lo' hi' unit low high,
    REFERENCE_RANGES !! param
    = Some (sex_bounded (FRange lo hi) (FRange lo' hi') unit low high) ∧
    (hi - lo =? 0)%float = false ∧ (hi' - lo' =? 0)%float = false ∧
    py_unpack2 (FText unit) = Raise ValueError ∧
    py_unpack2 (FText low) = Raise ValueError ∧
    py_unpack2 (FText high) = Raise ValueError.
Proof.
  unfold hematology_params. intros Hp.
  repeat (apply elem_of_cons in Hp as [-> | Hp]);
    [.. | by apply elem_of_nil in Hp].
  - exists 13.0%float, 16.5%float, 12.0%float, 15.5%float, "gm%",
      "Anemia possible", "Polycythemia possible".
    split; [reflexivity | by vm_compute].
  - exists 4.2%float, 5.4%float, 3.6%float, 5.0%float, "mill/c.mm.",
      "Low RBC count", "Elevated RBC count".
    split; [reflexivity | by vm_compute].
  - exists 4500%float, 10000%float, 4500%float, 10000%float, "/c.mm.",
      "Leukopenia - impaired immune response",
      "Leukocytosis - infection or inflammation possible".
    split; [reflexivity | by vm_compute].
  - exists 140000%float, 450000%float, 140000%float, 450000%float, "/c.mm.",
      "Thrombocytopenia - bleeding risk", "Thrombocytosis - clotting risk".
    split; [reflexivity | by vm_compute].
Qed.

(** One turn of the hematology loop for a parameter that was classified. *)
Lemma hematology_step_present cr pi param e data :
  param ∈ hematology_params →
  dict_get param cr = Some e →
  let sex := lower (default "MALE" (pi !! "sex")) in
  ((sex ∉ sex_bounded_keys) ∧ hematology_step cr pi param data = Return data) ∨
  ((sex ∈ ["unit"; "low_concern"; "high_concern"]) ∧
   hematology_step cr pi param data = Raises ValueError) ∨
  ((sex = "male" ∨ sex = "female") ∧
   match value_of e with
   | VStr _ => hematology_step cr pi param data = Raises TypeError
   | VNum x =>
       ∃ norm shown lo hi,
         hematology_step cr pi param data
         = Return (data ++
                   [HematologyRow (display_name param) shown (clamp norm)
                      lo hi (status e)])%list
   end).
Proof.
  intros Hp He sex.
  destruct (hematology_entries param Hp)
    as (lo & hi & lo' & hi' & unit & low & high & Href & Hd & Hd' & Hu & Hl & Hh).
  unfold hematology_step. rewrite He, Href. cbn [mbind option_bind].
  fold sex. rewrite sex_bounded_lookup. unfold sex_bounded_keys.
  repeat case_decide.
  - right; right. split; [by left |]. subst sex.
    destruct (value_of e) as [x | s]; [| done].
    cbn. rewrite Hd. cbn.
    destruct (String.eqb param "PLATELETS"); cbn; by eexists _, _, _, _.
  - right; right. split; [by right |]. 
    destruct (value_of e) as [x | s]; [| done].
    cbn. rewrite Hd'. cbn.
    destruct (String.eqb param "PLATELETS"); cbn; by eexists _, _, _, _.
  - right; left. split; [rewrite <- H1; in_list |]. by rewrite Hu.
  - right; left. split; [rewrite <- H2; in_list |]. by rewrite Hl.
  - right; left. split; [rewrite <- H3; in_list |]. by rewrite Hh.
  - left. split; [| done]. intros Hin.
    repeat (apply elem_of_cons in Hin as [Hin | Hin]; [congruence |]).
    by apply elem_of_nil in Hin.
Qed.

Lemma hematology_step_absent cr pi param data :
  dict_get param cr = None → hematology_step cr pi param data = Return data.
Proof. unfold hematology_step. by intros ->. Qed.

(** A property of the list that every turn of a loop keeps is kept by
    the loop. *)
Lemma for_each_invariant {A} (P : list A → Prop)
    (step : string → list A → outcome (list A)) params data data' :
  (∀ p d d', p ∈ params → step p d = Return d' → P d → P d') →
  for_each step params data = Return data' →
  P data → P data'.
Proof.
  revert data. induction params as [| p params IH]; intros data Hstep Hrun HP.
  - by injection Hrun as <-.
  - cbn in Hrun. destruct (step p data) as [d | |] eqn:Hp; try done.
    cbn in Hrun. apply (IH d); [| done |].
    + intros p' d1 d2 Hin. apply Hstep. by right.
    + apply (Hstep p data d); [left | done | done].
Qed.

(** ** No division by zero *)

(** The call does not end in [ZeroDivisionError]. *)
Definition no_zero_division {A} (m : outcome A) : Prop :=
  m ≠ RaisesZeroDivision.

Lemma no_zero_division_ret {A} (a : A) : no_zero_division (mret a).
Proof. done. Qed.

Lemma no_zero_division_lift {A} (r : result A) : no_zero_division (lift r).
Proof. by destruct r. Qed.

Lemma no_zero_division_bind {A B} (m : outcome A) (k : A → outcome B) :
  no_zero_division m → (∀ a, m = Return a → no_zero_division (k a)) →
  no_zero_division (m ≫= k).
Proof. destruct m as [a | e |]; [by intros _ H; apply H | done | done]. Qed.

Lemma no_zero_division_fmap {A B} (f : A → B) (m : outcome A) :
  no_zero_division m → no_zero_division (f <$> m).
Proof. by destruct m. Qed.

Lemma for_each_no_zero_division {A} (step : string → list A → outcome (list A))
    params data :
  (∀ p d, p ∈ params → no_zero_division (step p d)) →
  no_zero_division (for_each step params data).
Proof.
  revert data. induction params as [| p params IH]; intros data Hstep; [done |].
  cbn [for_each]. apply no_zero_division_bind.
  - apply Hstep. left.
  - intros d _. apply IH. intros p' d' Hin. apply Hstep. by right.
Qed.

Definition in_range (row : hematology_row) : Prop :=
  (0 <=? h_normalized row)%float = true ∧
  (h_normalized row <=? 100)%float = true.

(** One turn of the hematology loop: the list as it was, an exception
    other than [ZeroDivisionError], or one more row, normalized within
    the range. *)
Lemma hematology_step_cases cr pi param data :
  param ∈ hematology_params →
  hematology_step cr pi param data = Return data ∨
  (∃ e, hematology_step cr pi param data = Raises e) ∨
  ∃ row, in_range row ∧
         hematology_step cr pi param data = Return (data ++ [row])%list.
Proof.
  intros Hp. destruct (dict_get param cr) as [e |] eqn:He.
  - destruct (hematology_step_present cr pi param e data Hp He)
      as [[_ ->] | [[_ ->] | [_ Hv]]]; [by left | right; left; by eexists |].
    destruct (value_of e) as [x | s].
    + destruct Hv as (norm & shown & lo & hi & ->).
      right; right. eexists. split; [| reflexivity]. apply clamp_bounds.
    + right; left. by eexists.
  - left. by apply hematology_step_absent.
Qed.

Lemma lipid_step_no_zero_division cr pi param data :
  no_zero_division (lipid_step cr pi param data).
Proof.
  unfold lipid_step. destruct (dict_get param cr) as [e |]; [| done].
  apply no_zero_division_bind.
  - destruct (String.eqb param "LDL").
    { apply no_zero_division_bind; [apply no_zero_division_lift |].
      intros rr _. apply no_zero_division_fmap, no_zero_division_lift. }
    destruct (String.eqb param "HDL"); [| done].
    apply no_zero_division_bind; [apply no_zero_division_lift |].
    intros rr _. apply no_zero_division_fmap, no_zero_division_lift.
  - intros [bounds |] _; [| done].
    apply no_zero_division_bind; [apply no_zero_division_lift |].
    by intros [lo hi] _.
Qed.

(** X9. [create_visualizations] never ends in [ZeroDivisionError],
    whatever the classified observations and the sex: every pair of
    bounds it divides by is a pair of distinct numbers.  When it
    returns, every row of the hematology list holds a normalized value
    between 0 and 100, both included. *)
Theorem normalized_within_range (cr : list (string * entry))
    (pi : gmap string string) :
  create_visualizations cr pi ≠ RaisesZeroDivision ∧
  ∀ v rows,
    create_visualizations cr pi = Return v →
    hematology v = Some rows →
    Forall (λ row, (0 <=? h_normalized row)%float = true ∧
                   (h_normalized row <=? 100)%float = true) rows.
Proof.
  split.
  - unfold create_visualizations.
    apply no_zero_division_bind; [| intros hd _; apply no_zero_division_bind].
    + apply for_each_no_zero_division. intros p d Hp.
      destruct (hematology_step_cases cr pi p d Hp)
        as [H | [[e H] | (row & _ & H)]]; unfold no_zero_division; by rewrite H.
    + apply for_each_no_zero_division. intros p d _.
      apply lipid_step_no_zero_division.
    + done.
  - intros v rows. unfold create_visualizations.
    destruct (for_each (hematology_step cr pi) _ []) as [hd | |] eqn:Hh;
      [| done | done].
    cbn [mbind outcome_bind].
    destruct (for_each (lipid_step cr pi) _ []) as [ld | |]; [| done | done].
    cbn. intros [= <-]. cbn [hematology].
    assert (Forall in_range hd) as Hall.
    { refine (for_each_invariant (Forall in_range) _ _ _ _ _ Hh (Forall_nil_2 _)).
      intros p d d' Hp Hstep Hd.
      destruct (hematology_step_cases cr pi p d Hp)
        as [H | [[e H] | (row & Hrow & H)]]; rewrite H in Hstep; [| done |].
      - by injection Hstep as <-.
      - injection Hstep as <-. apply Forall_app. split; [done |].
        by apply Forall_singleton. }
    destruct hd as [| row hd]; [done |]. by intros [= <-].
Qed.

Lemma normalized_within_range_witness :
  let hb := Entry (VNum 5.0) "abnormal_low" (FText "Anemia possible") in
  let plt := Entry (VNum 1000000) "abnormal_high"
               (FText "Thrombocytosis - clotting risk") in
  ∃ rows,
    create_visualizations [("PLATELETS", plt); ("HAEMOGLOBIN", hb)] ∅
    = Return (Visualizations (Some rows) None) ∧
    h_normalized <$> rows = [0; 100]%float ∧
    h_value <$> rows = [VNum 5.0; VNum 1000] ∧
    Forall (λ row, (0 <=? h_normalized row)%float = true ∧
                   (h_normalized row <=? 100)%float = true) rows.
Proof.
  intros hb plt. eexists.
  split; [reflexivity | split; [reflexivity | split; [reflexivity |]]].
  exact (proj2 (normalized_within_range
                  [("PLATELETS", plt); ("HAEMOGLOBIN", hb)] ∅) _ _ eq_refl eq_refl).
Defined.

(** ** The rows for a male or female patient *)

(** [ref_range[key]] when both lookups succeed *)
Definition bounds_at (param key : string) : option field :=
  REFERENCE_RANGES !! param ≫= (.!! key).

(** The row of a hematology parameter with value [x] and bounds
    [(lo, hi)]. *)
Definition hematology_row_of (param : string) (e : entry) (x lo hi : float)
  : hematology_row :=
  HematologyRow (display_name param)
    (VNum (if String.eqb param "PLATELETS" then x / 1000 else x))
    (clamp ((x - lo) / (hi - lo) * 100)) (VNum lo) (VNum hi) (status e).

Definition lipid_row_of (param : string) (e : entry) (lo hi : float) : lipid_row :=
  LipidRow (display_name param) (value_of e) (VNum lo) (VNum hi) (status e).

Lemma hematology_step_male_female cr pi param data :
  let sex := lower (default "MALE" (pi !! "sex")) in
  sex = "male" ∨ sex = "female" →
  param ∈ hematology_params →
  ∃ lo hi,
    bounds_at param sex = Some (FRange lo hi) ∧
    hematology_step cr pi param data
    = match dict_get param cr with
      | Some e =>
          match value_of e with
          | VNum x => Return (data ++ [hematology_row_of param e x lo hi])%list
          | VStr _ => Raises TypeError
          end
      | None => Return data
      end.
Proof.
  intros sex Hsex Hp. unfold hematology_step, bounds_at. fold sex.
  unfold hematology_params in Hp.
  repeat (apply elem_of_cons in Hp as [-> | Hp]);
    [.. | by apply elem_of_nil in Hp];
    destruct Hsex as [-> | ->];
    (eexists _, _; split; [reflexivity |]);
    (destruct (dict_get _ cr) as [e |]; [| reflexivity]);
    by destruct (value_of e).
Qed.

Lemma lipid_step_male_female cr pi param data :
  let sex := lower (default "MALE" (pi !! "sex")) in
  sex = "male" ∨ sex = "female" →
  param ∈ lipid_params →
  ∃ lo hi,
    bounds_at param (if String.eqb param "LDL" then "normal" else sex)
    = Some (FRange lo hi) ∧
    lipid_step cr pi param data
    = match dict_get param cr with
      | Some e => Return (data ++ [lipid_row_of param e lo hi])%list
      | None => Return data
      end.
Proof.
  intros sex Hsex Hp. unfold lipid_step, bounds_at. fold sex.
  unfold lipid_params in Hp.
  repeat (apply elem_of_cons in Hp as [-> | Hp]);
    [.. | by apply elem_of_nil in Hp];
    destruct Hsex as [-> | ->];
    (eexists _, _; split; [reflexivity |]);
    by destruct (dict_get _ cr) as [e |].
Qed.

(** A loop whose turn either raises [err], for a parameter that is
    [bad], or appends the rows of the parameter. *)
Lemma for_each_rows {A} (step : string → list A → outcome (list A))
    (bad : string → Prop) (rows : string → list A) (err : exn) params data :
  (∀ p d, p ∈ params →
     (bad p ∧ step p d = Raises err) ∨
     (¬ bad p ∧ step p d = Return (d ++ rows p)%list)) →
  (Exists bad params → for_each step params data = Raises err) ∧
  (Forall (λ p, ¬ bad p) params →
   for_each step params data = Return (data ++ concat (rows <$> params))%list).
Proof.
  revert data. induction params as [| p params IH]; intros data Hstep.
  - split; [by intros ?%Exists_nil |]. intros _. cbn. by rewrite app_nil_r.
  - assert (∀ p' d, p' ∈ params →
              (bad p' ∧ step p' d = Raises err) ∨
              (¬ bad p' ∧ step p' d = Return (d ++ rows p')%list)) as Hrest.
    { intros p' d Hin. apply Hstep. by right. }
    cbn [for_each].
    destruct (Hstep p data ltac:(left)) as [[Hbad ->] | [Hgood ->]].
    + split; [done |]. by intros [? _]%Forall_cons.
    + destruct (IH (data ++ rows p)%list Hrest) as [IHbad IHgood].
      cbn [mbind outcome_bind]. split.
      * intros [? | Hex]%Exists_cons; [done | by apply IHbad].
      * intros [_ Hall]%Forall_cons. rewrite (IHgood Hall).
        rewrite fmap_cons. cbn [concat]. by rewrite app_assoc.
Qed.

(** The parameters of a list that were classified, with their entries,
    in the order of the list. *)
Definition classified (cr : list (string * entry)) (params : list string)
  : list (string * entry) :=
  omap (λ p, (p,.) <$> dict_get p cr) params.

Lemma Forall2_classified {A} (R : A → string * entry → Prop)
    (rows : string → list A) cr params :
  (∀ p, p ∈ params →
     match dict_get p cr with
     | Some e => ∃ row, rows p = [row] ∧ R row (p, e)
     | None => rows p = []
     end) →
  Forall2 R (concat (rows <$> params)) (classified cr params).
Proof.
  induction params as [| p params IH]; intros H; [constructor |].
  rewrite fmap_cons. cbn [concat]. unfold classified. cbn [omap list_omap].
  fold (classified cr params).
  pose proof (H p ltac:(left)) as Hp.
  destruct (dict_get p cr) as [e |].
  - destruct Hp as (row & -> & Hrow). cbn. constructor; [done |].
    apply IH. intros p' Hin. apply H. by right.
  - rewrite Hp. cbn. apply IH. intros p' Hin. apply H. by right.
Qed.

(** The hematology parameter was classified with a text for a value. *)
Definition text_value (cr : list (string * entry)) (param : string) : Prop :=
  ∃ e s, dict_get param cr = Some e ∧ value_of e = VStr s.

(** X10. For a male or female patient [create_visualizations] raises
    exactly when one of the four hematology parameters was classified
    with a text for a value, and then with [TypeError].  Otherwise it
    returns.  The hematology list has one row per classified hematology
    parameter, in the order of [hematology_params]: the bounds of the
    patient's sex, the value (PLATELETS in thousands), the value
    normalized on the bounds and clamped, and the status of the entry.
    The lipid list has one row per classified lipid parameter, in the
    order of [lipid_params]: the bounds of the sex (for LDL those of its
    normal tier), the value and the status.  A list is stored only when
    it is not empty. *)
Theorem visualizations_male_female (cr : list (string * entry))
    (pi : gmap string string) :
  let sex := lower (default "MALE" (pi !! "sex")) in
  sex = "male" ∨ sex = "female" →
  (Exists (text_value cr) hematology_params →
   create_visualizations cr pi = Raises TypeError) ∧
  (Forall (λ p, ¬ text_value cr p) hematology_params →
   ∃ hematology_data lipid_data,
     create_visualizations cr pi
     = Return (Visualizations (non_empty hematology_data) (non_empty lipid_data)) ∧
     Forall2 (λ row '(param, e),
                ∃ x lo hi,
                  value_of e = VNum x ∧
                  bounds_at param sex = Some (FRange lo hi) ∧
                  row = hematology_row_of param e x lo hi)
       hematology_data (classified cr hematology_params) ∧
     Forall2 (λ row '(param, e),
                ∃ lo hi,
                  bounds_at param (if String.eqb param "LDL" then "normal" else sex)
                  = Some (FRange lo hi) ∧
                  row = lipid_row_of param e lo hi)
       lipid_data (classified cr lipid_params)).
Proof.
  intros sex Hsex.
  set (hrows (p : string) :=
         match dict_get p cr, bounds_at p sex with
         | Some e, Some (FRange lo hi) =>
             match value_of e with
             | VNum x => [hematology_row_of p e x lo hi]
             | VStr _ => []
             end
         | _, _ => []
         end).
  set (lrows (p : string) :=
         match dict_get p cr,
               bounds_at p (if String.eqb p "LDL" then "normal" else sex) with
         | Some e, Some (FRange lo hi) => [lipid_row_of p e lo hi]
         | _, _ => []
         end).
  destruct (for_each_rows (hematology_step cr pi) (text_value cr) hrows TypeError
              hematology_params []) as [Hbad Hgood].
  { intros p d Hp.
    destruct (hematology_step_male_female cr pi p d Hsex Hp)
      as (lo & hi & Hb & ->).
    unfold hrows, text_value. fold sex in Hb. rewrite Hb.
    destruct (dict_get p cr) as [e |].
    - destruct (value_of e) as [x | s] eqn:Hv.
      + right. split; [| done]. intros (e' & s & [= <-] & ?). congruence.
      + left. split; [by exists e, s | done].
    - right. split; [by intros (e & s & ? & _) |]. by rewrite app_nil_r. }
  destruct (for_each_rows (lipid_step cr pi) (λ _, False) lrows TypeError
              lipid_params []) as [_ Hlipid].
  { intros p d Hp. right. split; [tauto |].
    destruct (lipid_step_male_female cr pi p d Hsex Hp) as (lo & hi & Hb & ->).
    unfold lrows. fold sex in Hb. rewrite Hb.
    destruct (dict_get p cr) as [e |]; [done | by rewrite app_nil_r]. }
  unfold create_visualizations.
  change ["HAEMOGLOBIN"; "RBC"; "WBC"; "PLATELETS"] with hematology_params.
  change ["CHOLESTEROL_TOTAL"; "TRIGLYCERIDES"; "HDL"; "LDL"] with lipid_params.
  split.
  - intros Hex. by rewrite (Hbad Hex).
  - intros Hall. rewrite (Hgood Hall), Hlipid by (apply Forall_forall; tauto).
    eexists _, _. split; [reflexivity |]. split.
    + apply Forall2_classified. intros p Hp.
      destruct (hematology_step_male_female cr pi p [] Hsex Hp)
        as (lo & hi & Hb & _).
      unfold hrows. fold sex in Hb. rewrite Hb.
      destruct (dict_get p cr) as [e |] eqn:He; [| done].
      destruct (value_of e) as [x | s] eqn:Hv.
      * eexists. split; [done |]. by exists x, lo, hi.
      * exfalso. rewrite Forall_forall in Hall. apply (Hall p Hp).
        by exists e, s.
    + apply Forall2_classified. intros p Hp.
      destruct (lipid_step_male_female cr pi p [] Hsex Hp) as (lo & hi & Hb & _).
      unfold lrows. fold sex in Hb. rewrite Hb.
      destruct (dict_get p cr) as [e |]; [| done].
      eexists. split; [done |]. by exists lo, hi.
Qed.

Lemma visualizations_male_female_witness :
  let pi : gmap string string := {[ "sex" := "Female" ]} in
  let hb := Entry (VNum 14.0) "normal" (FText "") in
  let rbc := Entry (VStr "4.5.") "not_numeric" (FText "") in
  let hdl := Entry (VNum 50) "normal" (FText "") in
  create_visualizations [("HAEMOGLOBIN", hb); ("RBC", rbc)] pi = Raises TypeError ∧
  ∃ hematology_data lipid_data,
    create_visualizations [("HDL", hdl); ("HAEMOGLOBIN", hb)] pi
    = Return (Visualizations (non_empty hematology_data) (non_empty lipid_data)) ∧
    Forall2 (λ row '(param, e),
               ∃ x lo hi,
                 value_of e = VNum x ∧
                 bounds_at param "female" = Some (FRange lo hi) ∧
                 row = hematology_row_of param e x lo hi)
      hematology_data [("HAEMOGLOBIN", hb)] ∧
    Forall2 (λ row '(param, e),
               ∃ lo hi,
                 bounds_at param (if String.eqb param "LDL" then "normal" else "female")
                 = Some (FRange lo hi) ∧
                 row = lipid_row_of param e lo hi)
      lipid_data [("HDL", hdl)].
Proof.
  intros pi hb rbc hdl. split.
  - apply (visualizations_male_female [("HAEMOGLOBIN", hb); ("RBC", rbc)] pi);
      [by right |].
    apply Exists_cons_tl, Exists_cons_hd. by exists rbc, "4.5.".
  - apply (visualizations_male_female [("HDL", hdl); ("HAEMOGLOBIN", hb)] pi);
      [by right |].
    unfold hematology_params, text_value.
    repeat (apply Forall_cons; split; [by intros (e & s & [= <-] & ?) |]).
    apply Forall_nil_2.
Defined.

(** ** A sex without bounds *)

Lemma bounds_at_None param sex :
  param ∉ tiered_tests → sex ∉ sex_bounded_keys → bounds_at param sex = None.
Proof.
  intros Ht Hs. unfold bounds_at.
  destruct (REFERENCE_RANGES !! param) as [rr |] eqn:Href; [| done].
  destruct (sex_bounded_entries _ _ Href Ht)
    as (male & female & unit & low & high & ->).
  cbn. by apply sex_bounded_lookup_None.
Qed.

Lemma hematology_step_no_bounds cr pi param data :
  lower (default "MALE" (pi !! "sex")) ∉ sex_bounded_keys →
  param ∈ hematology_params →
  hematology_step cr pi param data = Return data.
Proof.
  intros Hsex Hp. unfold hematology_step.
  destruct (dict_get param cr) as [e |]; [| done].
  fold (bounds_at param (lower (default "MALE" (pi !! "sex")))).
  rewrite bounds_at_None; [done | | done].
  unfold hematology_params in Hp.
  repeat (apply elem_of_cons in Hp as [-> | Hp]);
    [.. | by apply elem_of_nil in Hp]; by_compute.
Qed.

Lemma lipid_step_no_bounds cr pi param data :
  lower (default "MALE" (pi !! "sex")) ∉ sex_bounded_keys →
  param ∈ lipid_params →
  lipid_step cr pi param data
  = match dict_get param cr with
    | Some e =>
        if String.eqb param "LDL"
        then Return (data ++ [lipid_row_of param e 0 100])%list
        else if String.eqb param "HDL" then Raises KeyError
        else Return data
    | None => Return data
    end.
Proof.
  intros Hsex Hp. unfold lipid_step.
  destruct (dict_get param cr) as [e |]; [| done].
  set (sex := lower _) in *.
  unfold lipid_params in Hp.
  repeat (apply elem_of_cons in Hp as [-> | Hp]);
    [.. | by apply elem_of_nil in Hp].
  - cbn [String.eqb Ascii.eqb Bool.eqb].
    fold (bounds_at "CHOLESTEROL_TOTAL" sex).
    rewrite bounds_at_None; [done | by_compute | done].
  - cbn [String.eqb Ascii.eqb Bool.eqb].
    fold (bounds_at "TRIGLYCERIDES" sex).
    rewrite bounds_at_None; [done | by_compute | done].
  - cbn [String.eqb Ascii.eqb Bool.eqb]. unfold py_getitem.
    change (REFERENCE_RANGES !! "HDL")
      with (Some (sex_bounded (FRange 35 120) (FRange 35 120) "mg/dl"
                    "Low HDL - increased cardiovascular risk" "")).
    cbn [lift mbind outcome_bind].
    by rewrite sex_bounded_lookup_None.
  - reflexivity.
Qed.

(** X11. A sex that, lowercased, is no key of the entries (an
    extracted "M", say) is a sex [categorize_results] accepts;
    [create_visualizations] raises [KeyError] on it as soon as HDL was
    classified, since [REFERENCE_RANGES["HDL"][sex]] is looked up without
    a guard.  Without HDL it returns no hematology list, and a lipid
    list that holds the row of LDL alone when LDL was classified. *)
Theorem visualizations_without_bounds (cr : list (string * entry))
    (pi : gmap string string) :
  lower (default "MALE" (pi !! "sex")) ∉ sex_bounded_keys →
  create_visualizations cr pi
  = match dict_get "HDL" cr with
    | Some _ => Raises KeyError
    | None =>
        Return (Visualizations None
                  (match dict_get "LDL" cr with
                   | Some e => Some [lipid_row_of "LDL" e 0 100]
                   | None => None
                   end))
    end.
Proof.
  intros Hsex. unfold create_visualizations. cbn [for_each].
  repeat (rewrite hematology_step_no_bounds
            by (done || unfold hematology_params; in_list);
          cbn [mbind outcome_bind mret outcome_ret]).
  rewrite (lipid_step_no_bounds cr pi "CHOLESTEROL_TOTAL")
    by (done || unfold lipid_params; in_list).
  assert (∀ A (a : A) (k : A → outcome (list lipid_row)),
            (match dict_get "CHOLESTEROL_TOTAL" cr with
             | Some _ => Return a | None => Return a end) ≫= k = k a) as Hskip
    by (intros; by destruct (dict_get _ cr)).
  cbn [String.eqb Ascii.eqb Bool.eqb]. rewrite Hskip.
  rewrite (lipid_step_no_bounds cr pi "TRIGLYCERIDES")
    by (done || unfold lipid_params; in_list).
  cbn [String.eqb Ascii.eqb Bool.eqb].
  destruct (dict_get "TRIGLYCERIDES" cr); cbn [mbind outcome_bind];
    rewrite (lipid_step_no_bounds cr pi "HDL")
      by (done || unfold lipid_params; in_list);
    cbn [String.eqb Ascii.eqb Bool.eqb];
    (destruct (dict_get "HDL" cr); [done |]);
    cbn [mbind outcome_bind];
    rewrite (lipid_step_no_bounds cr pi "LDL")
      by (done || unfold lipid_params; in_list);
    by destruct (dict_get "LDL" cr).
Qed.

Lemma visualizations_without_bounds_witness :
  let pi : gmap string string := {[ "sex" := "M" ]} in
  let hdl := Entry (VNum 50) "not_numeric" (FText "") in
  let ldl := Entry (VNum 90) "normal" (FText "") in
  categorize_results [("HDL", VNum 50)] pi = Ok [("HDL", hdl)] ∧
  create_visualizations [("HDL", hdl)] pi = Raises KeyError ∧
  create_visualizations [("LDL", ldl)] pi
  = Return (Visualizations None (Some [lipid_row_of "LDL" ldl 0 100])).
Proof.
  intros pi hdl ldl. split; [reflexivity | split].
  - refine (visualizations_without_bounds [("HDL", hdl)] pi _). by_compute.
  - refine (visualizations_without_bounds [("LDL", ldl)] pi _). by_compute.
Defined.
